(** * go-torc: the control-channel parser, response buffers, authenticators
    and the Controller session, embedded from the Go sources
    (parser.go, message.go, controller and authenticator code, buffer
    types and command helpers). *)

From Stdlib Require Import String Ascii List ZArith Bool Lia Arith.
Import ListNotations.
Open Scope string_scope.

(** ** The parts of Go's [strings] and [strconv] packages the sources call.
  Go strings are byte sequences; Rocq's [string] is a list of 8-bit
  [ascii], so one [ascii] is one Go byte. *)
Module GoStrings.

Definition CR : ascii := "013"%char.
Definition LF : ascii := "010"%char.

(** The Go literal "\r\n". *)
Definition CRLF : string := String CR (String LF EmptyString).

(** The Go literal "\n". *)
Definition NL : string := String LF EmptyString.

(** [strings.HasPrefix(s, pre)]. *)
Definition HasPrefix (s pre : string) : bool := prefix pre s.

(** [strings.HasSuffix(s, suf)]:
    [len(s) >= len(suf) && s[len(s)-len(suf):] == suf]. *)
Definition HasSuffix (s suf : string) : bool :=
  (String.length suf <=? String.length s)%nat
  && String.eqb (substring (String.length s - String.length suf) (String.length suf) s) suf.

(** [strings.TrimSuffix(s, suf)]. *)
Definition TrimSuffix (s suf : string) : string :=
  if HasSuffix s suf then substring 0 (String.length s - String.length suf) s else s.

(** [strings.Replace(s, old, new, -1)] for a non-empty [old]: the
    non-overlapping occurrences of [old], leftmost first, are replaced.
    [skip] counts the bytes of a matched occurrence still to be dropped. *)
Fixpoint replace_from (old new : string) (skip : nat) (s : string) : string :=
  match s with
  | EmptyString => EmptyString
  | String c s' =>
      match skip with
      | S k => replace_from old new k s'
      | O =>
          if prefix old s
          then new ++ replace_from old new (String.length old - 1) s'
          else String c (replace_from old new 0 s')
      end
  end.

Definition Replace (s old new : string) : string := replace_from old new 0 s.

(** [strings.SplitN(s, sep, 2)] for a non-empty [sep]: the text before the
    first occurrence of [sep] and the text after it, or [s] alone when
    [sep] does not occur. *)
Definition SplitN2 (s sep : string) : list string :=
  match index 0 sep s with
  | Some i =>
      [ substring 0 i s;
        substring (i + String.length sep) (String.length s - (i + String.length sep)) s ]
  | None => [ s ]
  end.

(** Go's [int] on the 64-bit platforms. *)
Definition minInt : Z := - 2 ^ 63.
Definition maxInt : Z := 2 ^ 63 - 1.

Definition digit (c : ascii) : option Z :=
  let n := nat_of_ascii c in
  if ((48 <=? n) && (n <=? 57))%nat then Some (Z.of_nat n - 48)%Z else None.

(** Decimal digits, most significant first, accumulated onto [acc]. *)
Fixpoint digits (acc : Z) (s : string) : option Z :=
  match s with
  | EmptyString => Some acc
  | String c s' =>
      match digit c with
      | Some d => digits (acc * 10 + d)%Z s'
      | None => None
      end
  end.

(** [strconv.Atoi(s)]: an optional sign, then one or more decimal digits;
    [None] stands for a non-nil error (syntax or int range). *)
Definition Atoi (s : string) : option Z :=
  let '(neg, body) :=
    match s with
    | String "-" r => (true, r)
    | String "+" r => (false, r)
    | _ => (false, s)
    end in
  match body with
  | EmptyString => None
  | _ =>
      match digits 0 body with
      | Some n =>
          let v := if neg then (- n)%Z else n in
          if ((minInt <=? v) && (v <=? maxInt))%Z then Some v else None
      | None => None
      end
  end.

End GoStrings.
Export GoStrings.

(** ** Buffer types (the reply lines, [LineBuffer], [ResponseBuffer]). *)
Module Buffer.

Definition MidReplyLine := string.
Definition DataReplyLine := list string.
Definition EndReplyLine := string.

(** The LineBuffer type is used when building request messages. *)
Definition LineBuffer := list string.

(** The ResponseBuffer type is used by the parser to build incoming
    messages. *)
Record ResponseBuffer : Type := mkResponseBuffer {
  MidReplyLines : list MidReplyLine;
  DataReplyLines : list DataReplyLine;
  EndReplyLine_ : EndReplyLine
}.

(** [EndReplyLine._status_parts]. *)
Definition _status_parts (l : EndReplyLine) : list string := SplitN2 l " ".

(** [EndReplyLine.Status]: the status code, or -1 when it does not parse.
    [SplitN2] never returns the empty list, so index 0 is in range. *)
Definition EndStatus (l : EndReplyLine) : Z :=
  match Atoi (hd EmptyString (_status_parts l)) with
  | Some i => i
  | None => (-1)%Z
  end.

(** The body of a data block: the source reads it as [v[1:]], the lines
    after the data-reply line that opened the block. *)
Definition Body (d : DataReplyLine) : list string := tl d.

(** The loop body of [LineBuffer.Normalize] for one line. *)
Definition normalizeLine (v : string) : string :=
  let v := Replace v CRLF NL in
  let v := Replace v NL CRLF in
  if negb (HasSuffix v CRLF) then v ++ CRLF else v.

(** [LineBuffer.Normalize]; the resulting [[]byte] is a [string]. *)
Fixpoint Normalize (b : LineBuffer) : string :=
  match b with
  | [] => EmptyString
  | v :: b' => normalizeLine v ++ Normalize b'
  end.

End Buffer.
Export Buffer.

(** ** The message parser (parser.go). *)
Module Parser.

(** Parser state. The [reader] is the list of results of
    [reader.ReadString] still to come and the channel [ch] is the list of
    buffers posted so far; both are threaded by [Run]. *)
Record Parser : Type := mkParser {
  buffer : ResponseBuffer;
  dataReplyLine : DataReplyLine;
  bufferRaw : list string;
  isReady : bool;
  isMultiLine : bool
}.

(** One result of [p.reader.ReadString]: a line with a nil error, or an
    error other than [io.EOF]. End of input is the end of the list. *)
Inductive ReadResult : Type :=
| ReadOk (ln : string)
| ReadErr.

Definition emptyBuffer : ResponseBuffer := mkResponseBuffer [] [] EmptyString.

(** [Parser.Reset]; it leaves [dataReplyLine] as it is. *)
Definition Reset (p : Parser) : Parser :=
  mkParser emptyBuffer (dataReplyLine p) [] true false.

(** [NewParser]: the zero value, then [Reset]. *)
Definition NewParser : Parser := Reset (mkParser emptyBuffer [] [] false false).

(** [Parser.post]: the buffer goes to the channel, then [Reset]. *)
Definition post (p : Parser) : Parser * list ResponseBuffer :=
  (Reset p, [buffer p]).

(** Stateless parsing helpers. *)
Definition isReplyLine (ln : string) : bool :=
  if (String.length ln <? 5)%nat then false
  else match Atoi (substring 0 3 ln) with
       | None => false
       | Some _ => true
       end.

(** [ln[3] == c]; every caller has checked [isReplyLine] first, so the
    index is in range. *)
Definition byte3_is (ln : string) (c : ascii) : bool :=
  match get 3 ln with
  | Some d => Ascii.eqb d c
  | None => false
  end.

Definition isEndReplyLine (ln : string) : bool :=
  if negb (isReplyLine ln) || negb (byte3_is ln " ") then false else true.

Definition isMidReplyLine (ln : string) : bool :=
  if negb (isReplyLine ln) || negb (byte3_is ln "-") then false else true.

Definition isDataReplyLine (ln : string) : bool :=
  if negb (isReplyLine ln) || negb (byte3_is ln "+") then false else true.

Definition isEndOfData (ln : string) : bool :=
  if negb (String.length ln =? 1)%nat || negb (String.eqb ln ".") then false else true.

Definition set_end (b : ResponseBuffer) (l : EndReplyLine) : ResponseBuffer :=
  mkResponseBuffer (MidReplyLines b) (DataReplyLines b) l.

Definition add_mid (b : ResponseBuffer) (l : MidReplyLine) : ResponseBuffer :=
  mkResponseBuffer (MidReplyLines b ++ [l])%list (DataReplyLines b) (EndReplyLine_ b).

Definition add_data (b : ResponseBuffer) (d : DataReplyLine) : ResponseBuffer :=
  mkResponseBuffer (MidReplyLines b) (DataReplyLines b ++ [d])%list (EndReplyLine_ b).

(** The part of the loop body of [Parser.Run] that follows the line-ending
    check, on the trimmed line. *)
Definition accept (p : Parser) (ln : string) : Parser * list ResponseBuffer :=
  let p := mkParser (buffer p) (dataReplyLine p) (bufferRaw p ++ [ln])%list
                    (isReady p) (isMultiLine p) in
  if isReady p then
    if isEndReplyLine ln then
      post (mkParser (set_end (buffer p) ln) (dataReplyLine p) (bufferRaw p)
                     (isReady p) (isMultiLine p))
    else if isMidReplyLine ln then
      (mkParser (add_mid (buffer p) ln) (dataReplyLine p) (bufferRaw p)
                (isReady p) (isMultiLine p), [])
    else if isDataReplyLine ln then
      (mkParser (buffer p) [ln] (bufferRaw p) false true, [])
    else
      (Reset p, [])
  else if isMultiLine p then
    if negb (isEndOfData ln) then
      (mkParser (buffer p) (dataReplyLine p ++ [ln])%list (bufferRaw p)
                (isReady p) (isMultiLine p), [])
    else
      (mkParser (add_data (buffer p) (dataReplyLine p)) (dataReplyLine p)
                (bufferRaw p) true false, [])
  else (p, []).

(** One iteration of the loop of [Parser.Run]. *)
Definition iteration (p : Parser) (r : ReadResult) : Parser * list ResponseBuffer :=
  match r with
  | ReadErr => (p, [])
  | ReadOk ln =>
      if negb (HasSuffix ln CRLF) then (p, [])
      else accept p (TrimSuffix ln CRLF)
  end.

(** [Parser.Run] on the reads that precede [io.EOF]: the final state and
    the buffers posted, oldest first. *)
Fixpoint Run (p : Parser) (reads : list ReadResult) : Parser * list ResponseBuffer :=
  match reads with
  | [] => (p, [])
  | r :: reads' =>
      let '(p1, out1) := iteration p r in
      let '(p2, out2) := Run p1 reads' in
      (p2, (out1 ++ out2)%list)
  end.

(** A line as the server sends it: the text, then CRLF. *)
Definition wire (ln : string) : ReadResult := ReadOk (ln ++ CRLF).

(** The successive results of [reader.ReadString('\n')] on the bytes the
    connection delivers before it ends: each result runs up to and
    including the next LF; [cur] holds the bytes of the line being read.
    Bytes after the last LF come with [io.EOF], where the loop breaks. *)
Fixpoint readStrings (cur : string) (stream : string) : list ReadResult :=
  match stream with
  | EmptyString => []
  | String c rest =>
      if Ascii.eqb c LF
      then ReadOk (cur ++ String c EmptyString) :: readStrings EmptyString rest
      else readStrings (cur ++ String c EmptyString) rest
  end.

(** [Parser.Run] on the bytes of a connection. *)
Definition RunBytes (p : Parser) (stream : string) : Parser * list ResponseBuffer :=
  Run p (readStrings EmptyString stream).

End Parser.
Export Parser.

(** ** Requests and responses (message.go). *)
Module Message.

(** The BaseControlRequest type is the base type of all command request
    types; [timeout] is a [time.Duration], in nanoseconds. *)
Record BaseControlRequest : Type := mkRequest {
  req_buffer : LineBuffer;
  timeout : Z
}.

Definition Second : Z := 1000000000.

Definition NewRequest (data : string) : BaseControlRequest :=
  mkRequest ([] ++ [data])%list (Second * 5)%Z.

Definition ResponseTimeout (m : BaseControlRequest) : Z := timeout m.

Definition Serialize (m : BaseControlRequest) : LineBuffer := req_buffer m.

(** The BaseControlResponse type is the base type for all command response
    types. *)
Record BaseControlResponse : Type := mkResponse {
  Request_ : BaseControlRequest;
  Buffer : ResponseBuffer
}.

Definition NewResponse (req : BaseControlRequest) (data : ResponseBuffer)
  : BaseControlResponse := mkResponse req data.

(** The numerical status code of the response, from its EndReplyLine. *)
Definition Status (r : BaseControlResponse) : Z :=
  EndStatus (EndReplyLine_ (Buffer r)).

Definition IsSuccess (r : BaseControlResponse) : bool :=
  let status := Status r in
  if ((status >? 299) && (status <? 600))%Z then false else true.

End Message.
Export Message.

(** ** The Controller session and the authenticators. *)
Module Session.

(** A [net.Conn] is a handle the dialer hands out. *)
Definition Conn := nat.

(** The Go [error] values these functions return; a nil error is [None]
    of [option error]. *)
Inductive error : Type :=
| ErrDial            (* the error of the Dialer *)
| ErrWrite           (* the error of Write on the connection *)
| ErrTimeout         (* "Timeout waiting for reply." *)
| ErrReadFile        (* the error of ioutil.ReadFile *)
| ErrNoMethod        (* "Failed to find compatible authentication method." *)
| ErrAuthFailed      (* "Authentication failed!" *)
| ErrNotImplemented. (* "Not implemented yet!" *)

(** The implementations of the Authenticator interface. *)
Inductive Authenticator : Type :=
| OpenAuthenticator
| CookieAuthenticator
| PasswordAuthenticator
| SafeCookieAuthenticator.

Definition MethodName (a : Authenticator) : string :=
  match a with
  | OpenAuthenticator => "NULL"
  | CookieAuthenticator => "COOKIE"
  | PasswordAuthenticator => "HASHEDPASSWORD"
  | SafeCookieAuthenticator => "SAFECOOKIE"
  end.

(** The state of the channel [c.in]. *)
Inductive Chan : Type := ChanNil | ChanOpen | ChanClosed.

Record Controller : Type := mkController {
  Dialer : string -> string -> option Conn;
  network : string;
  hostport : string;
  connection : option Conn;
  isConnected : bool;
  in_ : Chan;
  parser : option Parser;
  Password : string;
  authenticator : option Authenticator;
  isAuthenticated : bool
}.

(** What the peer does with one request: the write fails, a buffer comes
    back through the parser before the timeout, or nothing comes back. *)
Inductive Exchange : Type :=
| WriteFails
| Replies (b : ResponseBuffer)
| Silent.

(** What the session does to the outside. *)
Inductive Event : Type :=
| EvDial (network hostport : string)
| EvGoParserRun
| EvWrite (conn : Conn) (bytes : string)
| EvConnClose (conn : Conn)
| EvChanClose.

(** The outside of the session: the exchanges still to come, the files
    [ioutil.ReadFile] can read, and the events so far, oldest first. *)
Record World : Type := mkWorld {
  exchanges : list Exchange;
  files : string -> option string;
  trace : list Event
}.

(** A run ends with a value in a new state, or in a Go panic. *)
Inductive Result (A : Type) : Type :=
| Ok (a : A) (c : Controller) (w : World)
| Panic.
Arguments Ok {A} a c w.
Arguments Panic {A}.

Definition M (A : Type) : Type := Controller -> World -> Result A.

Definition ret {A} (a : A) : M A := fun c w => Ok a c w.

Definition bind {A B} (m : M A) (k : A -> M B) : M B :=
  fun c w => match m c w with
             | Ok a c' w' => k a c' w'
             | Panic => Panic
             end.

Definition panic {A} : M A := fun _ _ => Panic.
Definition self : M Controller := fun c w => Ok c c w.
Definition update (f : Controller -> Controller) : M unit :=
  fun c w => Ok tt (f c) w.
Definition emit (e : Event) : M unit :=
  fun c w => Ok tt c (mkWorld (exchanges w) (files w) (trace w ++ [e])%list).

(** The next exchange is taken off the world; none left is silence. *)
Definition nextExchange : M Exchange :=
  fun c w => match exchanges w with
             | [] => Ok Silent c w
             | x :: xs => Ok x c (mkWorld xs (files w) (trace w))
             end.

Definition ReadFile (path : string) : M (option string) :=
  fun c w => Ok (files w path) c w.

End Session.
Export Session.

Declare Scope session_scope.
Delimit Scope session_scope with session.
Notation "x <- m ;; k" := (bind m (fun x => k))
  (at level 61, m at next level, right associativity) : session_scope.
Notation "m ;;; k" := (bind m (fun _ => k))
  (at level 61, right associativity) : session_scope.

(** ** Controller operations (Connect, Close, Request) and the
    authenticators' exchanges. *)
Module Ops.

Open Scope session_scope.

Definition COMMAND_AUTHENTICATE : string := "AUTHENTICATE".
Definition COMMAND_PROTOCOLINFO : string := "PROTOCOLINFO".

(** The bytes of a cookie as [fmt.Sprintf("%x", cookie)] prints them. *)
Definition hexDigit (n : nat) : ascii :=
  match n with
  | 0 => "0" | 1 => "1" | 2 => "2" | 3 => "3" | 4 => "4" | 5 => "5"
  | 6 => "6" | 7 => "7" | 8 => "8" | 9 => "9" | 10 => "a" | 11 => "b"
  | 12 => "c" | 13 => "d" | 14 => "e" | _ => "f"
  end%char.

Fixpoint hex (bytes : string) : string :=
  match bytes with
  | EmptyString => EmptyString
  | String c rest =>
      let n := nat_of_ascii c in
      String (hexDigit (n / 16)) (String (hexDigit (n mod 16)) (hex rest))
  end.

Definition quote : string := String "034"%char EmptyString.

Definition NewController (dial : string -> string -> option Conn)
    (network hostport : string) : Controller :=
  mkController dial network hostport None false ChanNil None EmptyString None false.

Definition IsConnected (c : Controller) : bool := isConnected c.
Definition IsAuthenticated (c : Controller) : bool := isAuthenticated c.

Definition set_isAuthenticated (b : bool) (c : Controller) : Controller :=
  mkController (Dialer c) (network c) (hostport c) (connection c) (isConnected c)
               (in_ c) (parser c) (Password c) (authenticator c) b.

Definition set_authenticator (a : option Authenticator) (c : Controller) : Controller :=
  mkController (Dialer c) (network c) (hostport c) (connection c) (isConnected c)
               (in_ c) (parser c) (Password c) a (isAuthenticated c).

(** The assignments of Connect after a successful dial. *)
Definition established (conn : Conn) (c : Controller) : Controller :=
  mkController (Dialer c) (network c) (hostport c) (Some conn) true
               ChanOpen (Some NewParser) (Password c) (authenticator c)
               (isAuthenticated c).

(** The assignments that end Close. *)
Definition torn_down (c : Controller) : Controller :=
  mkController (Dialer c) (network c) (hostport c) None false
               ChanClosed (parser c) (Password c) (authenticator c) false.

(** [Controller.SendMessage]; [x] is what the peer does with this
    request. A nil [c.connection] is dereferenced: a panic. *)
Definition SendMessage (buffer : LineBuffer) (x : Exchange) : M (option error) :=
  c <- self ;;
  match connection c with
  | None => panic
  | Some conn =>
      emit (EvWrite conn (Normalize buffer)) ;;;
      ret (match x with WriteFails => Some ErrWrite | _ => None end)
  end.

(** [Controller.Request]: the error, or the response the reply fills in.
    The select takes what arrives on [c.in] before the timeout; a closed
    channel yields the zero buffer at once and a nil channel nothing. *)
Definition Request (request : BaseControlRequest) : M (error + BaseControlResponse) :=
  x <- nextExchange ;;
  e <- SendMessage (Serialize request) x ;;
  match e with
  | Some e => ret (inl e)
  | None =>
      c <- self ;;
      match in_ c, x with
      | ChanClosed, _ => ret (inr (NewResponse request emptyBuffer))
      | ChanOpen, Replies buff => ret (inr (NewResponse request buff))
      | _, _ => ret (inl ErrTimeout)
      end
  end.

Definition ProtocolInfo : M (error + BaseControlResponse) :=
  Request (NewRequest COMMAND_PROTOCOLINFO).

(** The inner loop of the selection in Connect, for the authenticator [i]:
    the first advertised method equal to its name assigns it and breaks
    out of this loop. *)
Fixpoint offer (i : Authenticator) (methods : list string)
    (cur : option Authenticator) : option Authenticator :=
  match methods with
  | [] => cur
  | v :: vs =>
      if negb (String.eqb (MethodName i) v) then offer i vs cur
      else Some i
  end.

(** The outer loop: every entry of the preferences is visited. *)
Fixpoint selectAuthenticator (prefs : list Authenticator) (methods : list string)
    (cur : option Authenticator) : option Authenticator :=
  match prefs with
  | [] => cur
  | i :: rest => selectAuthenticator rest methods (offer i methods cur)
  end.

Definition authPrefs : list Authenticator :=
  [CookieAuthenticator; PasswordAuthenticator; OpenAuthenticator].

Section WithProtocolInfo.

(** [ProtocolInfoResponse.AuthMethods] and [AuthCookieFile] read the
    AUTH line of the reply with a regular expression of Go's [regexp]
    package; they are taken as given functions of the response. *)
Variable AuthMethods : BaseControlResponse -> list string.
Variable AuthCookieFile : BaseControlResponse -> string.

(** The tail shared by the three exchanges: the flag is assigned from
    the reply, and a session still unauthenticated is an error. *)
Definition conclude (response : BaseControlResponse) : M (option error) :=
  update (set_isAuthenticated (IsSuccess response)) ;;;
  c <- self ;;
  if negb (IsAuthenticated c) then ret (Some ErrAuthFailed) else ret None.

(** [Authenticate] of each implementation of the interface. *)
Definition Authenticate (a : Authenticator) (protoinfo : BaseControlResponse)
  : M (option error) :=
  match a with
  | OpenAuthenticator =>
      r <- Request (NewRequest COMMAND_AUTHENTICATE) ;;
      match r with
      | inl e => ret (Some e)
      | inr response => conclude response
      end
  | CookieAuthenticator =>
      cookie <- ReadFile (AuthCookieFile protoinfo) ;;
      match cookie with
      | None => ret (Some ErrReadFile)
      | Some cookie =>
          r <- Request (NewRequest ("AUTHENTICATE " ++ hex cookie)) ;;
          match r with
          | inl e => ret (Some e)
          | inr response =>
              let e : option error := None in
              if negb (IsSuccess response) then ret e
              else conclude response
          end
      end
  | PasswordAuthenticator =>
      c <- self ;;
      r <- Request (NewRequest ("AUTHENTICATE " ++ quote ++ Password c ++ quote)) ;;
      match r with
      | inl e => ret (Some e)
      | inr response =>
          let e : option error := None in
          if negb (IsSuccess response) then ret e
          else conclude response
      end
  | SafeCookieAuthenticator => ret (Some ErrNotImplemented)
  end.

(** [Controller.Connect]. *)
Definition Connect : M (option error) :=
  c <- self ;;
  if IsConnected c then ret None
  else
    emit (EvDial (network c) (hostport c)) ;;;
    match Dialer c (network c) (hostport c) with
    | None => ret (Some ErrDial)
    | Some conn =>
        update (established conn) ;;;
        emit EvGoParserRun ;;;
        r <- ProtocolInfo ;;
        match r with
        | inl e => ret (Some e)
        | inr protoinfo =>
            update (fun c => set_authenticator
                     (selectAuthenticator authPrefs (AuthMethods protoinfo)
                                          (authenticator c)) c) ;;;
            c <- self ;;
            match authenticator c with
            | None => ret (Some ErrNoMethod)
            | Some a =>
                e <- Authenticate a protoinfo ;;
                match e with
                | Some _ => ret (Some ErrAuthFailed)
                | None => ret None
                end
            end
        end
    end.

End WithProtocolInfo.

(** [Controller.Close]. Closing a nil or an already closed channel
    panics. *)
Definition Close : M unit :=
  c <- self ;;
  match connection c with
  | None => ret tt
  | Some conn =>
      emit (EvConnClose conn) ;;;
      match in_ c with
      | ChanOpen => emit EvChanClose ;;; update torn_down
      | _ => panic
      end
  end.

End Ops.
Export Ops.

(** ** The accessors of the reply lines and the command responses.
    An index or slice out of range is a Go panic; a function that can
    panic returns an [option], [None] being the panic. *)
Module Lines.

(** [strings.Join(elems, sep)]. *)
Definition Join (elems : list string) (sep : string) : string :=
  String.concat sep elems.

(** [strings.TrimPrefix(s, pre)]. *)
Definition TrimPrefix (s pre : string) : string :=
  if HasPrefix s pre
  then substring (String.length pre) (String.length s - String.length pre) s
  else s.

(** [MidReplyLine._parts], [Status] and [Text]. *)
Definition MidReplyLine_parts (l : MidReplyLine) : list string := SplitN2 l "-".

Definition MidReplyLine_Status (l : MidReplyLine) : Z :=
  match Atoi (hd EmptyString (MidReplyLine_parts l)) with
  | Some i => i
  | None => (-1)%Z
  end.

Definition MidReplyLine_Text (l : MidReplyLine) : option string :=
  nth_error (MidReplyLine_parts l) 1.

(** [DataReplyLine._parts] reads [l[0]], [Status] and [Text] read the
    parts. *)
Definition DataReplyLine_parts (l : DataReplyLine) : option (list string) :=
  match l with
  | [] => None
  | l0 :: _ => Some (SplitN2 l0 "+")
  end.

Definition DataReplyLine_Status (l : DataReplyLine) : option Z :=
  match DataReplyLine_parts l with
  | None => None
  | Some parts =>
      match Atoi (hd EmptyString parts) with
      | Some i => Some i
      | None => Some (-1)%Z
      end
  end.

Definition DataReplyLine_Text (l : DataReplyLine) : option string :=
  match DataReplyLine_parts l with
  | None => None
  | Some parts => nth_error parts 1
  end.

(** [l[1:]] of a DataReplyLine. *)
Definition DataReplyLine_rest (l : DataReplyLine) : option (list string) :=
  match l with
  | [] => None
  | _ :: rest => Some rest
  end.

(** [EndReplyLine.StatusText]. *)
Definition EndReplyLine_StatusText (l : EndReplyLine) : option string :=
  nth_error (_status_parts l) 1.

(** [BaseControlResponse.StatusText]. *)
Definition StatusText (r : BaseControlResponse) : option string :=
  EndReplyLine_StatusText (EndReplyLine_ (Buffer r)).

End Lines.
Export Lines.

Module Commands.

Open Scope session_scope.

Definition COMMAND_GETCONF : string := "GETCONF".
Definition COMMAND_GETINFO : string := "GETINFO".
Definition COMMAND_SIGNAL : string := "SIGNAL".
Definition COMMAND_ADD_ONION : string := "ADD_ONION".
Definition COMMAND_DEL_ONION : string := "DEL_ONION".

(** [__find_prefix_mrl]. *)
Fixpoint __find_prefix_mrl (data : list MidReplyLine) (pre : string) : option string :=
  match data with
  | [] => Some EmptyString
  | v :: rest =>
      match MidReplyLine_Text v with
      | None => None
      | Some text =>
          if HasPrefix text pre then Some text
          else __find_prefix_mrl rest pre
      end
  end.

(** [__find_prefix_drl]. *)
Fixpoint __find_prefix_drl (data : list DataReplyLine) (pre : string) : option string :=
  match data with
  | [] => Some EmptyString
  | v :: rest =>
      match DataReplyLine_Text v with
      | None => None
      | Some text =>
          if HasPrefix text pre
          then match DataReplyLine_rest v with
               | None => None
               | Some body => Some (Join body NL)
               end
          else __find_prefix_drl rest pre
      end
  end.

(** [GetInfoResponse.Value]: the first MidReply value, or the first
    DataReply value. *)
Definition GetInfoResponse_Value (m : BaseControlResponse) : option string :=
  match MidReplyLines (Buffer m) with
  | [l] => nth_error (SplitN2 l "=") 1
  | _ =>
      match DataReplyLines (Buffer m) with
      | [data] =>
          match DataReplyLine_rest data with
          | None => None
          | Some body => Some (Join body NL)
          end
      | _ => Some EmptyString
      end
  end.

(** [GetInfoResponse.ValueOf]. *)
Definition GetInfoResponse_ValueOf (m : BaseControlResponse) (key : string)
  : option string :=
  match __find_prefix_mrl (MidReplyLines (Buffer m)) key with
  | None => None
  | Some text =>
      if negb (String.eqb text EmptyString)
      then Some (TrimPrefix text (key ++ "="))
      else __find_prefix_drl (DataReplyLines (Buffer m)) key
  end.

(** A Go [map[string]string], as far as lookups see it. *)
Definition StrMap : Type := string -> option string.

Definition emptyMap : StrMap := fun _ => None.

(** [results[k] = v]. *)
Definition put (k v : string) (results : StrMap) : StrMap :=
  fun k' => if String.eqb k' k then Some v else results k'.

(** The loop of [ValueAll] over the mid-reply lines. *)
Fixpoint collect_mids (data : list MidReplyLine) (results : StrMap) : option StrMap :=
  match data with
  | [] => Some results
  | v :: rest =>
      match MidReplyLine_Text v with
      | None => None
      | Some text =>
          let parts := SplitN2 text "=" in
          match nth_error parts 1 with
          | None => None
          | Some value => collect_mids rest (put (hd EmptyString parts) value results)
          end
      end
  end.

(** The loop of [GetInfoResponse.ValueAll] over the data-reply lines. *)
Fixpoint collect_data (data : list DataReplyLine) (results : StrMap) : option StrMap :=
  match data with
  | [] => Some results
  | v :: rest =>
      match DataReplyLine_Text v, DataReplyLine_rest v with
      | Some text, Some body =>
          collect_data rest (put (TrimSuffix text "=") (Join body NL) results)
      | _, _ => None
      end
  end.

(** [GetInfoResponse.ValueAll]. *)
Definition GetInfoResponse_ValueAll (m : BaseControlResponse) : option StrMap :=
  match collect_mids (MidReplyLines (Buffer m)) emptyMap with
  | None => None
  | Some results => collect_data (DataReplyLines (Buffer m)) results
  end.

(** [GetConfResponse.Value]. *)
Definition GetConfResponse_Value (m : BaseControlResponse) : option string :=
  match StatusText m with
  | None => None
  | Some text => nth_error (SplitN2 text "=") 1
  end.

(** The loop of [GetConfResponse.ValueOf]. *)
Fixpoint conf_lookup (data : list MidReplyLine) (key : string) : option string :=
  match data with
  | [] => Some EmptyString
  | i :: rest =>
      match MidReplyLine_Text i with
      | None => None
      | Some text =>
          let parts := SplitN2 text "=" in
          if String.eqb (hd EmptyString parts) key then nth_error parts 1
          else conf_lookup rest key
      end
  end.

Definition GetConfResponse_ValueOf (m : BaseControlResponse) (key : string)
  : option string := conf_lookup (MidReplyLines (Buffer m)) key.

(** [GetConfResponse.ValueAll]. *)
Definition GetConfResponse_ValueAll (m : BaseControlResponse) : option StrMap :=
  match collect_mids (MidReplyLines (Buffer m)) emptyMap with
  | None => None
  | Some results =>
      match StatusText m with
      | None => None
      | Some text =>
          let parts := SplitN2 text "=" in
          match nth_error parts 1 with
          | None => None
          | Some value => Some (put (hd EmptyString parts) value results)
          end
      end
  end.

(** [ProtocolInfoResponse.Protocol]. *)
Definition ProtocolInfoResponse_Protocol (m : BaseControlResponse) : option Z :=
  match __find_prefix_mrl (MidReplyLines (Buffer m)) "PROTOCOLINFO" with
  | None => None
  | Some text =>
      match nth_error (SplitN2 text " ") 1 with
      | None => None
      | Some number =>
          match Atoi number with
          | Some i => Some i
          | None => Some (-1)%Z
          end
      end
  end.

(** [v[n:]] of a string. *)
Definition sliceFrom (v : string) (n : nat) : option string :=
  if (String.length v <? n)%nat then None
  else Some (substring n (String.length v - n) v).

(** The start of [ProtocolInfoResponse.Auth]: the text of the AUTH line
    after "AUTH", which Auth hands to [__make_variable_map]. *)
Definition ProtocolInfoResponse_AuthText (m : BaseControlResponse) : option string :=
  match __find_prefix_mrl (MidReplyLines (Buffer m)) "AUTH" with
  | None => None
  | Some text => sliceFrom text (String.length "AUTH")
  end.

(** [AddOnionResponse.ServiceId] and [PrivateKey]. *)
Definition AddOnionResponse_ServiceId (m : BaseControlResponse) : option string :=
  match __find_prefix_mrl (MidReplyLines (Buffer m)) "ServiceID=" with
  | None => None
  | Some v => sliceFrom v (String.length "ServiceID")
  end.

Definition AddOnionResponse_PrivateKey (m : BaseControlResponse) : option string :=
  match __find_prefix_mrl (MidReplyLines (Buffer m)) "PrivateKey=" with
  | None => None
  | Some v => sliceFrom v (String.length "PrivateKey")
  end.

(** The command methods of the Controller: each builds one request line
    and hands it to Request. *)
Definition GetInfo (keys : list string) : M (error + BaseControlResponse) :=
  Request (NewRequest (COMMAND_GETINFO ++ " " ++ Join keys " ")).

Definition GetConf (keys : list string) : M (error + BaseControlResponse) :=
  Request (NewRequest (COMMAND_GETCONF ++ " " ++ Join keys " ")).

Definition Signal (signal : string) : M (error + BaseControlResponse) :=
  Request (NewRequest (COMMAND_SIGNAL ++ " " ++ signal)).

(** The request line of [AddOnion]. *)
Definition addOnionLine (keyType keyData : string) (flags ports : list string) : string :=
  let reqline := COMMAND_ADD_ONION ++ " " ++ keyType ++ ":" ++ keyData in
  let reqline :=
    if (0 <? List.length flags)%nat then reqline ++ " Flags=" ++ Join flags ","
    else reqline in
  fold_left (fun reqline v => reqline ++ " Port=" ++ v) ports reqline.

Definition AddOnion (keyType keyData : string) (flags ports : list string)
  : M (error + BaseControlResponse) :=
  Request (NewRequest (addOnionLine keyType keyData flags ports)).

Definition DelOnion (serviceId : string) : M (error + BaseControlResponse) :=
  let serviceId :=
    if HasSuffix serviceId ".onion" then TrimSuffix serviceId ".onion"
    else serviceId in
  Request (NewRequest (COMMAND_DEL_ONION ++ " " ++ serviceId)).

End Commands.
Export Commands.

(** ** Predicates the properties are stated with. *)
Module Props.

(** Every LF of [s] directly follows a CR; [prevCR] tells whether the
    byte before [s] is a CR. *)
Fixpoint noBareLF_after (prevCR : bool) (s : string) : bool :=
  match s with
  | EmptyString => true
  | String c s' =>
      (if Ascii.eqb c LF then prevCR else true)
      && noBareLF_after (Ascii.eqb c CR) s'
  end.

Definition noBareLF (s : string) : bool := noBareLF_after false s.

(** No byte of [s] is a LF. *)
Fixpoint noLF (s : string) : bool :=
  match s with
  | EmptyString => true
  | String c s' => negb (Ascii.eqb c LF) && noLF s'
  end.

(** A line that is already CRLF-terminated and has no bare newline. *)
Definition crlfLine (v : string) : bool := HasSuffix v CRLF && noBareLF v.

(** The concatenation of the lines of a LineBuffer. *)
Fixpoint flatten (b : LineBuffer) : string :=
  match b with
  | [] => EmptyString
  | v :: b' => v ++ flatten b'
  end.

(** Bytes read back as a LineBuffer: no bytes are no line, any other
    byte sequence is one line. *)
Definition asLineBuffer (bytes : string) : LineBuffer :=
  match bytes with
  | EmptyString => []
  | _ => [bytes]
  end.

(** Whether an authenticator's method name is among the advertised
    methods. *)
Definition advertised (methods : list string) (a : Authenticator) : bool :=
  existsb (String.eqb (MethodName a)) methods.

(** The first strategy in preference order whose method is advertised. *)
Definition firstAdvertised (prefs : list Authenticator) (methods : list string)
  : option Authenticator := find (advertised methods) prefs.

(** Events that release the connection or the channel. *)
Definition is_close (ev : Event) : bool :=
  match ev with
  | EvConnClose _ | EvChanClose => true
  | _ => false
  end.

(** What Close relies on: an open connection comes with an open
    channel, as Connect sets them up together. *)
Definition closable (c : Controller) : bool :=
  match connection c, in_ c with
  | Some _, ChanOpen => true
  | Some _, _ => false
  | None, _ => true
  end.

(** The parser state without the data block in progress. In the READY
    state the parser's next moves do not depend on the stale
    [dataReplyLine] that [Reset] leaves behind. *)
Definition forget_block (p : Parser) : Parser :=
  mkParser (buffer p) [] (bufferRaw p) (isReady p) (isMultiLine p).

Definition same_moves (p q : Parser) : Prop :=
  p = q \/ (isReady p = true /\ forget_block p = forget_block q).

End Props.
Export Props.

(** ** Messages as the server frames them, and what a well-formed
    ResponseBuffer is. *)
Module Framing.

(** The byte [c] does not occur in [s]. *)
Fixpoint lacks (c : ascii) (s : string) : bool :=
  match s with
  | EmptyString => true
  | String d s' => negb (Ascii.eqb d c) && lacks c s'
  end.

(** A data block as the parser closes it: the data-reply line that opened
    it, then body lines none of which is the "." line. *)
Definition wfData (d : DataReplyLine) : bool :=
  match d with
  | [] => false
  | hdr :: body =>
      isDataReplyLine hdr && forallb (fun l => negb (isEndOfData l)) body
  end.

Definition wfBuffer (b : ResponseBuffer) : bool :=
  forallb isMidReplyLine (MidReplyLines b)
  && forallb wfData (DataReplyLines b)
  && isEndReplyLine (EndReplyLine_ b).

(** The state of a parser between two reads. *)
Definition wfParser (p : Parser) : bool :=
  forallb isMidReplyLine (MidReplyLines (buffer p))
  && forallb wfData (DataReplyLines (buffer p))
  && Bool.eqb (isMultiLine p) (negb (isReady p))
  && (if isReady p then true else wfData (dataReplyLine p)).

(** What precedes the end-reply line of a message: mid-reply lines and
    data blocks, in any order. *)
Inductive Item : Type :=
| ItemMid (l : string)
| ItemData (hdr : string) (body : list string).

Definition wfItem (i : Item) : bool :=
  match i with
  | ItemMid l => isMidReplyLine l
  | ItemData hdr body => wfData (hdr :: body)
  end.

Definition itemLines (i : Item) : list string :=
  match i with
  | ItemMid l => [l]
  | ItemData hdr body => hdr :: body ++ ["."]
  end.

Fixpoint midsOf (items : list Item) : list MidReplyLine :=
  match items with
  | [] => []
  | ItemMid l :: rest => l :: midsOf rest
  | ItemData _ _ :: rest => midsOf rest
  end.

Fixpoint blocksOf (items : list Item) : list DataReplyLine :=
  match items with
  | [] => []
  | ItemMid _ :: rest => blocksOf rest
  | ItemData hdr body :: rest => (hdr :: body) :: blocksOf rest
  end.

(** The buffer in progress after an item. *)
Definition extend (b : ResponseBuffer) (i : Item) : ResponseBuffer :=
  match i with
  | ItemMid l => add_mid b l
  | ItemData hdr body => add_data b (hdr :: body)
  end.

(** A message: its items, then its end-reply line. *)
Definition Msg : Type := (list Item * string)%type.

Definition wfMsg (m : Msg) : bool :=
  forallb wfItem (fst m) && isEndReplyLine (snd m).

Definition msgLines (m : Msg) : list string :=
  flat_map itemLines (fst m) ++ [snd m].

Definition bufferOf (m : Msg) : ResponseBuffer :=
  mkResponseBuffer (midsOf (fst m)) (blocksOf (fst m)) (snd m).

(** The read is an end-reply line with its line ending. *)
Definition readsEnd (r : ReadResult) : bool :=
  match r with
  | ReadOk ln => HasSuffix ln CRLF && isEndReplyLine (TrimSuffix ln CRLF)
  | ReadErr => false
  end.

(** The mid-reply line of a reply that carries [key=value]. *)
Definition keyValueLine (kv : string * string) : MidReplyLine :=
  "250-" ++ fst kv ++ "=" ++ snd kv.

(** The text of that line. *)
Definition keyValueText (kv : string * string) : string :=
  fst kv ++ "=" ++ snd kv.

(** The end-reply line of a GETCONF reply, which carries the last pair. *)
Definition keyValueEnd (kv : string * string) : EndReplyLine :=
  "250 " ++ fst kv ++ "=" ++ snd kv.

(** A reply with the given lines, to any request. *)
Definition replyOf (mids : list MidReplyLine) (data : list DataReplyLine)
    (e : EndReplyLine) : BaseControlResponse :=
  NewResponse (NewRequest EmptyString) (mkResponseBuffer mids data e).

(** The value of the first pair with the key, the empty string without. *)
Definition firstValue (kvs : list (string * string)) (key : string) : string :=
  match find (fun kv => String.eqb (fst kv) key) kvs with
  | Some kv => snd kv
  | None => EmptyString
  end.

(** The value of the last pair with the key. *)
Definition lastValue (kvs : list (string * string)) (key : string) : option string :=
  match find (fun kv => String.eqb (fst kv) key) (rev kvs) with
  | Some kv => Some (snd kv)
  | None => None
  end.

(** What Request returns on a connected session whose channel is open. *)
Definition outcome (req : BaseControlRequest) (w : World) : error + BaseControlResponse :=
  match exchanges w with
  | Replies b :: _ => inr (NewResponse req b)
  | WriteFails :: _ => inl ErrWrite
  | _ => inl ErrTimeout
  end.

End Framing.
Export Framing.

(** ** Concrete peers and replies the examples run against. *)
Module Scenario.

Definition dial7 : string -> string -> option Conn := fun _ _ => Some 7.

Definition noFiles : string -> option string := fun _ => None.

Definition cookieFiles : string -> option string :=
  fun path => if String.eqb path "/run/tor/control.authcookie"
              then Some "abc" else None.

Definition protoinfoReply : ResponseBuffer :=
  mkResponseBuffer
    ["250-PROTOCOLINFO 1"; "250-AUTH METHODS=HASHEDPASSWORD,NULL";
     "250-VERSION Tor=0.2.7.6"] [] "250 OK".

Definition ok250 : ResponseBuffer := mkResponseBuffer [] [] "250 OK".

Definition bad515 : ResponseBuffer :=
  mkResponseBuffer [] [] "515 Authentication failed".

(** The advertised methods and cookie file of the replies above. *)
Definition passwordOrNull : BaseControlResponse -> list string :=
  fun _ => ["HASHEDPASSWORD"; "NULL"].

Definition passwordOnly : BaseControlResponse -> list string :=
  fun _ => ["HASHEDPASSWORD"].

Definition cookiePath : BaseControlResponse -> string :=
  fun _ => "/run/tor/control.authcookie".

Definition fresh : Controller := NewController dial7 "tcp" "127.0.0.1:9051".

End Scenario.
Export Scenario.

(** * Properties *)

Open Scope list_scope.

(** ** The definitions on the inputs of the end-to-end scenarios *)
Section Examples.

Example Atoi_250 : Atoi "250" = Some 250%Z. Proof. reflexivity. Qed.
Example Atoi_XYZ : Atoi "XYZ" = None. Proof. reflexivity. Qed.
Example Atoi_neg : Atoi "-12" = Some (-12)%Z. Proof. reflexivity. Qed.
Example Atoi_sign_only : Atoi "+" = None. Proof. reflexivity. Qed.
Example Atoi_empty : Atoi "" = None. Proof. reflexivity. Qed.

Example run_scenario_mid :
  snd (Run NewParser [wire "250-version=1.0"; wire "250 OK"])
  = [mkResponseBuffer ["250-version=1.0"] [] "250 OK"].
Proof. reflexivity. Qed.

Example run_scenario_data :
  snd (Run NewParser [wire "250+info/names="; wire "foo Description";
                      wire "bar Description"; wire "."; wire "250 OK"])
  = [mkResponseBuffer [] [["250+info/names="; "foo Description"; "bar Description"]]
                      "250 OK"].
Proof. reflexivity. Qed.

Example EndStatus_250 : EndStatus "250 OK" = 250%Z.
Proof. reflexivity. Qed.

Example EndStatus_unparsed : EndStatus "XYZ OK" = (-1)%Z.
Proof. reflexivity. Qed.

Example IsSuccess_250_515_650 :
  IsSuccess (NewResponse (NewRequest "GETINFO version") ok250) = true
  /\ IsSuccess (NewResponse (NewRequest "AUTHENTICATE") bad515) = false
  /\ IsSuccess (NewResponse (NewRequest "SETEVENTS")
                            (mkResponseBuffer [] [] "650 CIRC")) = true.
Proof. repeat split. Qed.

Example Normalize_appends_CRLF :
  Normalize ["GETINFO version"] = ("GETINFO version" ++ CRLF)%string.
Proof. reflexivity. Qed.

Example Normalize_bare_newline :
  Normalize [("a" ++ NL ++ "b")%string] = ("a" ++ CRLF ++ "b" ++ CRLF)%string.
Proof. reflexivity. Qed.

Example Normalize_empty_buffer :
  Normalize [] = EmptyString /\ Normalize [EmptyString] = CRLF.
Proof. split; reflexivity. Qed.

Example hex_cookie : hex "abc" = "616263".
Proof. reflexivity. Qed.

Example bytes_scenario_mid :
  snd (RunBytes NewParser
         ("250-version=1.0" ++ CRLF ++ "250 OK" ++ CRLF ++ "250-partial")%string)
  = [mkResponseBuffer ["250-version=1.0"] [] "250 OK"].
Proof. reflexivity. Qed.

Example bytes_scenario_data :
  snd (RunBytes NewParser
         ("250+info/names=" ++ CRLF ++ "foo Description" ++ CRLF
          ++ "bar Description" ++ CRLF ++ "." ++ CRLF ++ "250 OK" ++ CRLF)%string)
  = [mkResponseBuffer [] [["250+info/names="; "foo Description"; "bar Description"]]
                      "250 OK"].
Proof. reflexivity. Qed.

Example bytes_bare_newline_dropped :
  snd (RunBytes NewParser
         ("250-no carriage return" ++ NL ++ "250 OK" ++ CRLF)%string)
  = [mkResponseBuffer [] [] "250 OK"].
Proof. reflexivity. Qed.

Example run_drops_unterminated :
  snd (Run NewParser [ReadOk "250-no line ending"; ReadErr; wire "250 OK"])
  = [mkResponseBuffer [] [] "250 OK"].
Proof. reflexivity. Qed.

End Examples.

(** ** Facts about the string functions *)
Section StringFacts.

Lemma length_app (a b : string) :
  String.length (a ++ b)%string = String.length a + String.length b.
Proof. induction a as [|c a IH]; simpl; [reflexivity | now rewrite IH]. Qed.

Lemma substring_skip (a b : string) (m : nat) :
  substring (String.length a) m (a ++ b)%string = substring 0 m b.
Proof. induction a as [|c a IH]; simpl; [reflexivity | exact IH]. Qed.

Lemma substring_take (a b : string) :
  substring 0 (String.length a) (a ++ b)%string = a.
Proof.
  induction a as [|c a IH]; simpl.
  - destruct b; reflexivity.
  - now rewrite IH.
Qed.

Lemma HasSuffix_CRLF (ln : string) : HasSuffix (ln ++ CRLF)%string CRLF = true.
Proof.
  unfold HasSuffix. rewrite length_app.
  replace (String.length ln + String.length CRLF - String.length CRLF)
    with (String.length ln) by lia.
  rewrite substring_skip. simpl String.length.
  replace (2 <=? String.length ln + 2)%nat with true
    by (symmetry; apply Nat.leb_le; lia).
  reflexivity.
Qed.

Lemma TrimSuffix_CRLF (ln : string) : TrimSuffix (ln ++ CRLF)%string CRLF = ln.
Proof.
  unfold TrimSuffix. rewrite HasSuffix_CRLF, length_app.
  replace (String.length ln + String.length CRLF - String.length CRLF)
    with (String.length ln) by lia.
  apply substring_take.
Qed.

Lemma append_nil_r (s : string) : (s ++ EmptyString)%string = s.
Proof. induction s as [|c s IH]; cbn; [reflexivity | now rewrite IH]. Qed.

Lemma append_assoc (a b c : string) :
  ((a ++ b) ++ c)%string = (a ++ (b ++ c))%string.
Proof. induction a as [|x a IH]; cbn; [reflexivity | now rewrite IH]. Qed.

End StringFacts.

(** ** The parser *)
Section ParserFacts.

Lemma iteration_wire (p : Parser) (ln : string) :
  iteration p (wire ln) = accept p ln.
Proof.
  unfold iteration, wire. now rewrite HasSuffix_CRLF, TrimSuffix_CRLF.
Qed.

Lemma Run_cons_wire (p : Parser) (ln : string) (rest : list ReadResult) :
  Run p (wire ln :: rest)
  = (fst (Run (fst (accept p ln)) rest),
     (snd (accept p ln) ++ snd (Run (fst (accept p ln)) rest))%list).
Proof.
  cbn [Run]. rewrite iteration_wire.
  destruct (accept p ln) as [p1 o1]. cbn [fst snd].
  destruct (Run p1 rest) as [p2 o2]. reflexivity.
Qed.

Lemma Run_app (p : Parser) (xs ys : list ReadResult) :
  Run p (xs ++ ys)
  = (fst (Run (fst (Run p xs)) ys),
     (snd (Run p xs) ++ snd (Run (fst (Run p xs)) ys))%list).
Proof.
  revert p. induction xs as [|x xs IH]; intros p.
  - cbn. now destruct (Run p ys).
  - cbn [app Run]. destruct (iteration p x) as [p1 o1].
    rewrite IH. destruct (Run p1 xs) as [p2 o2]. cbn [fst snd].
    destruct (Run p2 ys) as [p3 o3]. cbn [fst snd].
    now rewrite app_assoc.
Qed.

(** Reading the bytes of LF-free lines, each followed by CRLF, gives the
    lines back one by one. *)
Lemma readStrings_line (ln : string) : forall cur rest,
  noLF ln = true ->
  readStrings cur (ln ++ CRLF ++ rest)%string
  = ReadOk (cur ++ ln ++ CRLF)%string :: readStrings EmptyString rest.
Proof.
  induction ln as [|c ln IH]; intros cur rest H.
  - cbn. now rewrite append_assoc.
  - cbn [noLF] in H. apply andb_true_iff in H as [Hc H].
    cbn [append readStrings]. destruct (Ascii.eqb c LF); [discriminate|].
    rewrite IH by assumption. now rewrite append_assoc.
Qed.

Lemma readStrings_lines (lines : list string) :
  Forall (fun l => noLF l = true) lines ->
  readStrings EmptyString (flatten (map (fun l => l ++ CRLF)%string lines))
  = map wire lines.
Proof.
  induction 1 as [|l lines Hl _ IH]; [reflexivity|].
  cbn [map flatten]. rewrite append_assoc, readStrings_line by assumption.
  now rewrite IH.
Qed.

(** A line shorter than five bytes is no reply line of any kind. *)
Lemma short_not_reply (ln : string) :
  String.length ln < 5 -> isReplyLine ln = false.
Proof.
  intros H. unfold isReplyLine.
  now replace (String.length ln <? 5)%nat with true
    by (symmetry; apply Nat.ltb_lt; exact H).
Qed.

Lemma reply_long (ln : string) : isReplyLine ln = true -> 5 <= String.length ln.
Proof.
  unfold isReplyLine. destruct (String.length ln <? 5)%nat eqn:E; [discriminate|].
  intros _. apply Nat.ltb_ge in E. exact E.
Qed.

Lemma unparsed_not_reply (ln : string) :
  Atoi (substring 0 3 ln) = None -> isReplyLine ln = false.
Proof.
  intros H. unfold isReplyLine. rewrite H.
  now destruct (String.length ln <? 5)%nat.
Qed.

Lemma not_reply_kinds (ln : string) :
  isReplyLine ln = false ->
  isEndReplyLine ln = false /\ isMidReplyLine ln = false
  /\ isDataReplyLine ln = false.
Proof.
  intros H. unfold isEndReplyLine, isMidReplyLine, isDataReplyLine.
  rewrite H. cbn. repeat split.
Qed.

(** In the READY state a line that is no reply line resets the parser. *)
Lemma accept_ready_not_reply (p : Parser) (ln : string) :
  isReady p = true -> isReplyLine ln = false ->
  accept p ln = (Reset p, []).
Proof.
  intros Hr Hn. destruct (not_reply_kinds ln Hn) as (He & Hm & Hd).
  unfold accept. cbn [isReady]. rewrite Hr, He, Hm, Hd. reflexivity.
Qed.

Lemma mid_not_end (ln : string) :
  isMidReplyLine ln = true -> isEndReplyLine ln = false.
Proof.
  unfold isMidReplyLine, isEndReplyLine, byte3_is.
  destruct (isReplyLine ln); cbn; [|reflexivity].
  destruct (get 3 ln) as [d|]; cbn; [|reflexivity].
  destruct (Ascii.eqb_spec d "-"); [subst; reflexivity | discriminate].
Qed.

Lemma data_not_end_mid (ln : string) :
  isDataReplyLine ln = true ->
  isEndReplyLine ln = false /\ isMidReplyLine ln = false.
Proof.
  unfold isDataReplyLine, isMidReplyLine, isEndReplyLine, byte3_is.
  destruct (isReplyLine ln); cbn; [|split; reflexivity].
  destruct (get 3 ln) as [d|]; cbn; [|split; reflexivity].
  destruct (Ascii.eqb_spec d "+"); [subst; split; reflexivity | discriminate].
Qed.

Lemma not_dot (ln : string) : ln <> "." -> isEndOfData ln = false.
Proof.
  intros H. unfold isEndOfData.
  destruct (String.eqb_spec ln "."); [contradiction|].
  now rewrite orb_true_r.
Qed.

(** Mid-reply lines in the READY state pile up in the buffer. *)
Lemma Run_mids (mids : list string) : forall p,
  isReady p = true ->
  Forall (fun l => isMidReplyLine l = true) mids ->
  Run p (map wire mids)
  = (mkParser (mkResponseBuffer (MidReplyLines (buffer p) ++ mids)
                                (DataReplyLines (buffer p))
                                (EndReplyLine_ (buffer p)))
              (dataReplyLine p) (bufferRaw p ++ mids) true (isMultiLine p),
     []).
Proof.
  induction mids as [|m mids IH]; intros p Hr Hall.
  - cbn. rewrite !app_nil_r. destruct p as [[? ? ?] ? ? ? ?].
    cbn in *. now subst.
  - inversion Hall as [|? ? Hm Hrest]; subst.
    cbn [map]. rewrite Run_cons_wire.
    assert (Ha : accept p m
                 = (mkParser (add_mid (buffer p) m) (dataReplyLine p)
                             (bufferRaw p ++ [m]) true (isMultiLine p), [])).
    { unfold accept. cbn [isReady buffer dataReplyLine bufferRaw isMultiLine].
      rewrite Hr, (mid_not_end m Hm), Hm. reflexivity. }
    rewrite Ha. cbn [fst snd]. rewrite IH; [|reflexivity|assumption].
    cbn. now rewrite <- !app_assoc.
Qed.

(** Lines other than "." inside a data block pile up in the block. *)
Lemma Run_body (body : list string) : forall p,
  isReady p = false -> isMultiLine p = true ->
  Forall (fun l => l <> ".") body ->
  Run p (map wire body)
  = (mkParser (buffer p) (dataReplyLine p ++ body) (bufferRaw p ++ body)
              false true, []).
Proof.
  induction body as [|l body IH]; intros p Hr Hm Hall.
  - cbn. rewrite !app_nil_r. destruct p. cbn in *. now subst.
  - inversion Hall as [|? ? Hl Hrest]; subst.
    cbn [map]. rewrite Run_cons_wire.
    assert (Ha : accept p l
                 = (mkParser (buffer p) (dataReplyLine p ++ [l])
                             (bufferRaw p ++ [l]) false true, [])).
    { unfold accept. cbn [isReady buffer dataReplyLine bufferRaw isMultiLine].
      rewrite Hr, Hm, (not_dot l Hl). reflexivity. }
    rewrite Ha. cbn [fst snd]. rewrite IH; [|reflexivity|reflexivity|assumption].
    cbn. now rewrite <- !app_assoc.
Qed.

Lemma iteration_same_moves (p q : Parser) (r : ReadResult) :
  same_moves p q ->
  same_moves (fst (iteration p r)) (fst (iteration q r))
  /\ snd (iteration p r) = snd (iteration q r).
Proof.
  intros [->|[Hr Hf]]; [split; [now left | reflexivity]|].
  destruct p as [b d raw rdy ml], q as [b' d' raw' rdy' ml'].
  unfold forget_block in Hf. cbn in Hr, Hf. injection Hf as -> -> <- ->. subst rdy.
  destruct r as [ln|]; cbn [iteration].
  2:{ split; [right; split; reflexivity | reflexivity]. }
  destruct (negb (HasSuffix ln CRLF)).
  { split; [right; split; reflexivity | reflexivity]. }
  unfold accept. cbn [isReady buffer dataReplyLine bufferRaw isMultiLine].
  destruct (isEndReplyLine _); [split; [right; split; reflexivity|reflexivity]|].
  destruct (isMidReplyLine _); [split; [right; split; reflexivity|reflexivity]|].
  destruct (isDataReplyLine _); [split; [now left|reflexivity]|].
  split; [right; split; reflexivity|reflexivity].
Qed.

Lemma Run_same_moves (reads : list ReadResult) : forall p q,
  same_moves p q -> snd (Run p reads) = snd (Run q reads).
Proof.
  induction reads as [|r reads IH]; intros p q H; [reflexivity|].
  cbn [Run]. destruct (iteration_same_moves p q r H) as [Hs Ho].
  destruct (iteration p r) as [p1 o1], (iteration q r) as [q1 o1'].
  cbn [fst snd] in Hs, Ho. subst o1'.
  specialize (IH p1 q1 Hs).
  destruct (Run p1 reads), (Run q1 reads). cbn [snd] in *. now subst.
Qed.

End ParserFacts.

(** ** Parser: the claims *)
Section ParserClaims.

(** Mid-reply lines, then an end-reply line: one buffer is posted. *)
Lemma Run_mids_end (mids : list string) (e : string) :
  Forall (fun l => isMidReplyLine l = true) mids ->
  isEndReplyLine e = true ->
  Run NewParser (map wire (mids ++ [e]))
  = (NewParser, [mkResponseBuffer mids [] e]).
Proof.
  intros Hm He.
  rewrite map_app, Run_app, (Run_mids mids NewParser); [|reflexivity|assumption].
  cbn [fst snd map]. rewrite Run_cons_wire.
  unfold accept. cbn [isReady buffer dataReplyLine bufferRaw isMultiLine].
  rewrite He. reflexivity.
Qed.

(** A data-reply line, body lines, the "." line, then an end-reply line:
    one buffer with one data block is posted. *)
Lemma Run_data_block (hdr : string) (body : list string) (e : string) :
  isDataReplyLine hdr = true ->
  Forall (fun l => l <> ".") body ->
  isEndReplyLine e = true ->
  snd (Run NewParser (map wire (hdr :: body ++ ["."; e])))
  = [mkResponseBuffer [] [hdr :: body] e].
Proof.
  intros Hd Hb He. destruct (data_not_end_mid hdr Hd) as [Hne Hnm].
  cbn [map]. rewrite Run_cons_wire.
  assert (Ha : accept NewParser hdr
               = (mkParser emptyBuffer [hdr] [hdr] false true, [])).
  { unfold accept. cbn [isReady buffer dataReplyLine bufferRaw isMultiLine NewParser Reset].
    rewrite Hne, Hnm, Hd. reflexivity. }
  rewrite Ha. cbn [fst snd]. rewrite map_app, Run_app.
  rewrite (Run_body body (mkParser emptyBuffer [hdr] [hdr] false true));
    [|reflexivity|reflexivity|assumption].
  cbn [fst snd map app]. rewrite !Run_cons_wire.
  unfold accept at 2 3 4.
  cbn [isReady buffer dataReplyLine bufferRaw isMultiLine fst snd].
  replace (isEndOfData ".") with true by reflexivity.
  cbn [negb fst snd isReady buffer dataReplyLine bufferRaw isMultiLine].
  unfold accept. cbn [isReady buffer dataReplyLine bufferRaw isMultiLine].
  rewrite He. reflexivity.
Qed.

(** The same two facts on the bytes of the connection, for lines that
    hold no LF. *)
Lemma RunBytes_mids_end (mids : list string) (e : string) :
  Forall (fun l => isMidReplyLine l = true) mids ->
  isEndReplyLine e = true ->
  Forall (fun l => noLF l = true) (mids ++ [e]) ->
  RunBytes NewParser (flatten (map (fun l => l ++ CRLF)%string (mids ++ [e])))
  = (NewParser, [mkResponseBuffer mids [] e]).
Proof.
  intros Hm He Hlf. unfold RunBytes.
  rewrite readStrings_lines by assumption. now apply Run_mids_end.
Qed.

Lemma RunBytes_data_block (hdr : string) (body : list string) (e : string) :
  isDataReplyLine hdr = true ->
  Forall (fun l => l <> ".") body ->
  isEndReplyLine e = true ->
  Forall (fun l => noLF l = true) (hdr :: body ++ ["."; e]) ->
  snd (RunBytes NewParser
         (flatten (map (fun l => l ++ CRLF)%string (hdr :: body ++ ["."; e]))))
  = [mkResponseBuffer [] [hdr :: body] e].
Proof.
  intros Hd Hb He Hlf. unfold RunBytes.
  rewrite readStrings_lines by assumption. now apply Run_data_block.
Qed.

(** C7. Zero or more mid-reply lines followed by one end-reply line, fed to
    a new parser, post exactly one ResponseBuffer: its mid-reply lines are
    the input mid-reply lines in order, it has no data block, and its
    end-reply line is the terminating line. Nothing is posted for any
    prefix of the input that stops before the end-reply line. *)
Theorem mid_lines_then_end_post_one (mids : list string) (e : string) :
  Forall (fun l => isMidReplyLine l = true) mids ->
  isEndReplyLine e = true ->
  Run NewParser (map wire (mids ++ [e]))
  = (NewParser, [mkResponseBuffer mids [] e])
  /\ (forall k, k <= List.length mids ->
        snd (Run NewParser (map wire (firstn k (mids ++ [e])))) = []).
Proof.
  intros Hm He. split; [now apply Run_mids_end|].
  intros k Hk. rewrite firstn_app.
  replace (k - List.length mids) with 0 by lia.
  cbn [firstn]. rewrite app_nil_r.
  rewrite Run_mids; [reflexivity|reflexivity|].
  rewrite <- (firstn_skipn k mids) in Hm.
  apply Forall_app in Hm. apply Hm.
Qed.

Lemma mid_lines_then_end_post_one_witness :
  Run NewParser (map wire (["250-version=1.0"; "250-AUTH METHODS=NULL"] ++ ["250 OK"]))
  = (NewParser,
     [mkResponseBuffer ["250-version=1.0"; "250-AUTH METHODS=NULL"] [] "250 OK"]).
Proof.
  apply (mid_lines_then_end_post_one
           ["250-version=1.0"; "250-AUTH METHODS=NULL"] "250 OK").
  - repeat constructor.
  - reflexivity.
Defined.

(** C6. A data-reply line, N body lines none of which is ".", a line ".",
    then an end-reply line, fed to a new parser, post one buffer with a
    single data block: the block is opened by the data-reply line and its
    body is exactly the N body lines in order, without the "." line. *)
Theorem data_block_holds_body (hdr : string) (body : list string) (e : string) :
  isDataReplyLine hdr = true ->
  Forall (fun l => l <> ".") body ->
  isEndReplyLine e = true ->
  exists b,
    snd (Run NewParser (map wire (hdr :: body ++ ["."; e]))) = [b]
    /\ MidReplyLines b = []
    /\ EndReplyLine_ b = e
    /\ map (hd EmptyString) (DataReplyLines b) = [hdr]
    /\ map Body (DataReplyLines b) = [body].
Proof.
  intros Hd Hb He. exists (mkResponseBuffer [] [hdr :: body] e).
  split; [now apply Run_data_block | repeat split].
Qed.

Lemma data_block_holds_body_witness :
  exists b,
    snd (Run NewParser
           (map wire ("250+info/names=" :: ["foo Description"; "bar Description"]
                        ++ ["."; "250 OK"]))) = [b]
    /\ MidReplyLines b = []
    /\ EndReplyLine_ b = "250 OK"
    /\ map (hd EmptyString) (DataReplyLines b) = ["250+info/names="]
    /\ map Body (DataReplyLines b) = [["foo Description"; "bar Description"]].
Proof.
  apply (data_block_holds_body "250+info/names="
           ["foo Description"; "bar Description"] "250 OK").
  - reflexivity.
  - repeat constructor; discriminate.
  - reflexivity.
Defined.

(** C10. A line is classified as end-, mid- or data-reply only when it has
    at least 5 bytes. A shorter line, such as the 4-byte line "250 " with
    a valid status code and separator, is none of the three; in the READY
    state it falls to the default case, which resets the parser: nothing
    is posted and the buffer in progress is emptied. *)
Theorem short_line_resets_buffer (p : Parser) (ln : string) :
  isReady p = true ->
  String.length ln < 5 ->
  (forall l, isEndReplyLine l = true \/ isMidReplyLine l = true
             \/ isDataReplyLine l = true -> 5 <= String.length l)
  /\ isEndReplyLine ln = false /\ isMidReplyLine ln = false
  /\ isDataReplyLine ln = false
  /\ iteration p (wire ln) = (Reset p, [])
  /\ buffer (Reset p) = emptyBuffer.
Proof.
  intros Hr Hlen. pose proof (short_not_reply ln Hlen) as Hn.
  destruct (not_reply_kinds ln Hn) as (He & Hm & Hd).
  split; [|repeat split; try assumption].
  - intros l H. apply reply_long.
    destruct (isReplyLine l) eqn:E; [reflexivity|].
    destruct (not_reply_kinds l E) as (He' & Hm' & Hd').
    destruct H as [H|[H|H]]; congruence.
  - rewrite iteration_wire. now apply accept_ready_not_reply.
Qed.

Lemma short_line_resets_buffer_witness :
  let p := fst (Run NewParser [wire "250-version=1.0"]) in
  MidReplyLines (buffer p) = ["250-version=1.0"]
  /\ Atoi (substring 0 3 "250 ") = Some 250%Z
  /\ byte3_is "250 " " " = true
  /\ iteration p (wire "250 ") = (Reset p, [])
  /\ buffer (Reset p) = emptyBuffer.
Proof.
  cbv zeta. split; [reflexivity|]. split; [reflexivity|]. split; [reflexivity|].
  apply (short_line_resets_buffer
           (fst (Run NewParser [wire "250-version=1.0"])) "250 ").
  - reflexivity.
  - simpl. lia.
Defined.

(** C2, as the claim states it, fails: after one mid-reply line the line
    "XYZ OK" empties the buffer in progress, and the end-reply line that
    follows posts a buffer without the mid-reply line. *)
Lemma unparsed_line_loses_buffer :
  let p := fst (Run NewParser [wire "250-version=1.0"]) in
  Atoi (substring 0 3 "XYZ OK") = None
  /\ buffer p = mkResponseBuffer ["250-version=1.0"] [] EmptyString
  /\ buffer (fst (iteration p (wire "XYZ OK"))) <> buffer p
  /\ snd (Run NewParser [wire "250-version=1.0"; wire "XYZ OK"; wire "250 OK"])
     = [mkResponseBuffer [] [] "250 OK"]
  /\ snd (Run NewParser [wire "250-version=1.0"; wire "XYZ OK"; wire "250 OK"])
     <> [mkResponseBuffer ["250-version=1.0"] [] "250 OK"].
Proof.
  cbv zeta. repeat split; try reflexivity; vm_compute; discriminate.
Qed.

(** C2, amended. A line whose first 3 bytes do not parse as an integer,
    read in the READY state, posts nothing and resets the parser: the line
    is dropped together with the whole buffer in progress, the state stays
    READY, and the lines that follow are parsed as by a new parser. *)
Theorem unparsed_line_resets_parser (p : Parser) (ln : string) :
  isReady p = true ->
  Atoi (substring 0 3 ln) = None ->
  iteration p (wire ln) = (Reset p, [])
  /\ buffer (Reset p) = emptyBuffer
  /\ bufferRaw (Reset p) = []
  /\ isReady (Reset p) = true
  /\ isMultiLine (Reset p) = false
  /\ (forall rest, snd (Run (fst (iteration p (wire ln))) rest)
                   = snd (Run NewParser rest)).
Proof.
  intros Hr Hn.
  assert (Hi : iteration p (wire ln) = (Reset p, [])).
  { rewrite iteration_wire.
    apply accept_ready_not_reply; [assumption | now apply unparsed_not_reply]. }
  repeat split; try assumption.
  intros rest. rewrite Hi. cbn [fst].
  apply Run_same_moves. right. split; reflexivity.
Qed.

Lemma unparsed_line_resets_parser_witness :
  let p := fst (Run NewParser [wire "250-version=1.0"]) in
  iteration p (wire "XYZ OK") = (Reset p, [])
  /\ buffer (Reset p) = emptyBuffer
  /\ bufferRaw (Reset p) = []
  /\ isReady (Reset p) = true
  /\ isMultiLine (Reset p) = false
  /\ (forall rest, snd (Run (fst (iteration p (wire "XYZ OK"))) rest)
                   = snd (Run NewParser rest)).
Proof.
  cbv zeta.
  apply (unparsed_line_resets_parser
           (fst (Run NewParser [wire "250-version=1.0"])) "XYZ OK").
  - reflexivity.
  - reflexivity.
Defined.

(** Inside a data block such a line is body text like any other. *)
Lemma unparsed_line_in_data_block (p : Parser) (ln : string) :
  isReady p = false -> isMultiLine p = true -> ln <> "." ->
  iteration p (wire ln)
  = (mkParser (buffer p) (dataReplyLine p ++ [ln]) (bufferRaw p ++ [ln])
              false true, []).
Proof.
  intros Hr Hm Hl. rewrite iteration_wire. unfold accept.
  cbn [isReady buffer dataReplyLine bufferRaw isMultiLine].
  now rewrite Hr, Hm, (not_dot ln Hl).
Qed.

End ParserClaims.

(** ** Status classification *)
Section StatusClaims.


Lemma status_300_599_not_success (r : BaseControlResponse) :
  (300 <= Status r <= 599)%Z -> IsSuccess r = false.
Proof.
  intros H. unfold IsSuccess. cbv zeta.
  destruct (Z.gtb_spec (Status r) 299); [|lia].
  destruct (Z.ltb_spec (Status r) 600); [reflexivity|lia].
Qed.



End StatusClaims.

(** ** LineBuffer normalization *)
Section NormalizeFacts.

Local Abbreviation R1 := (replace_from CRLF NL 0).
Local Abbreviation R2 := (replace_from NL CRLF 0).

Lemma R1_CRLF (s : string) : R1 (String CR (String LF s)) = String LF (R1 s).
Proof. destruct s; reflexivity. Qed.

Lemma R1_CR_other (d : ascii) (s : string) :
  d <> LF -> R1 (String CR (String d s)) = String CR (R1 (String d s)).
Proof.
  intros H. cbn [replace_from prefix CRLF].
  destruct (ascii_dec CR CR) as [_|n]; [|now destruct n].
  destruct (ascii_dec LF d) as [e|_]; [now destruct H|reflexivity].
Qed.

Lemma R1_CR_end : R1 (String CR EmptyString) = String CR EmptyString.
Proof. reflexivity. Qed.

Lemma R1_other (c : ascii) (s : string) :
  c <> CR -> R1 (String c s) = String c (R1 s).
Proof.
  intros H. cbn [replace_from prefix CRLF].
  destruct (ascii_dec CR c) as [e|_]; [now destruct H|reflexivity].
Qed.

Lemma R2_LF (s : string) : R2 (String LF s) = String CR (String LF (R2 s)).
Proof. destruct s; reflexivity. Qed.

Lemma R2_other (c : ascii) (s : string) :
  c <> LF -> R2 (String c s) = String c (R2 s).
Proof.
  intros H. cbn [replace_from prefix NL].
  destruct (ascii_dec LF c) as [e|_]; [now destruct H|reflexivity].
Qed.

(** What follows a byte other than LF at the head does not depend on
    the byte before. *)
Lemma noBareLF_after_head (b b' : bool) (c : ascii) (s : string) :
  c <> LF ->
  noBareLF_after b (String c s) = noBareLF_after b' (String c s).
Proof.
  intros H. cbn [noBareLF_after].
  destruct (Ascii.eqb_spec c LF); [contradiction|reflexivity].
Qed.

Lemma noBareLF_after_weaken (s : string) (b : bool) :
  noBareLF_after false s = true -> noBareLF_after b s = true.
Proof.
  destruct s as [|c s]; [reflexivity|]. cbn [noBareLF_after].
  destruct (Ascii.eqb c LF); [discriminate|]. now destruct b.
Qed.

(** Undoing and redoing the CRLF pairs gives back a string without bare
    newlines. *)
Lemma R2_R1_bounded (n : nat) : forall s,
  String.length s <= n -> noBareLF s = true -> R2 (R1 s) = s.
Proof.
  unfold noBareLF.
  induction n as [|n IH]; intros s Hlen Hs.
  - destruct s; [reflexivity | cbn in Hlen; lia].
  - destruct s as [|c s]; [reflexivity|].
    cbn [noBareLF_after] in Hs. apply andb_true_iff in Hs as [Hc Hs].
    destruct (Ascii.eqb_spec c LF) as [->|HcLF]; [discriminate|].
    cbn [String.length] in Hlen.
    destruct (Ascii.eqb_spec c CR) as [->|HcCR].
    + destruct s as [|d s]; [reflexivity|].
      destruct (Ascii.eqb_spec d LF) as [->|HdLF].
      * rewrite R1_CRLF, R2_LF. do 2 f_equal.
        cbn [noBareLF_after] in Hs. apply andb_true_iff in Hs as [_ Hs].
        replace (Ascii.eqb LF CR) with false in Hs by reflexivity.
        apply IH; [cbn [String.length] in Hlen; lia | exact Hs].
      * rewrite R1_CR_other by assumption.
        rewrite R2_other by discriminate. f_equal.
        apply IH; [lia|].
        now rewrite (noBareLF_after_head false true d s HdLF).
    + rewrite R1_other by assumption. rewrite R2_other by assumption.
      f_equal. apply IH; [lia | exact Hs].
Qed.

Lemma R2_R1_id (s : string) : noBareLF s = true -> R2 (R1 s) = s.
Proof. apply (R2_R1_bounded (String.length s)). lia. Qed.

(** A line already in wire form is left as it is. *)
Lemma normalizeLine_fixed (v : string) :
  crlfLine v = true -> normalizeLine v = v.
Proof.
  unfold crlfLine. intros H. apply andb_true_iff in H as [Hsuf Hclean].
  unfold normalizeLine, Replace. rewrite (R2_R1_id v Hclean).
  now rewrite Hsuf.
Qed.

Lemma Normalize_fixed (b : LineBuffer) :
  Forall (fun v => crlfLine v = true) b -> Normalize b = flatten b.
Proof.
  induction 1 as [|v b Hv Hb IH]; [reflexivity|].
  cbn [Normalize flatten]. now rewrite (normalizeLine_fixed v Hv), IH.
Qed.

End NormalizeFacts.

Section NormalizeClaims.

Lemma HasSuffix_length (s suf : string) :
  HasSuffix s suf = true -> String.length suf <= String.length s.
Proof.
  unfold HasSuffix. intros H. apply andb_true_iff in H as [H _].
  now apply Nat.leb_le.
Qed.

Lemma HasSuffix_cons (c : ascii) (s suf : string) :
  String.length suf <= String.length s ->
  HasSuffix (String c s) suf = HasSuffix s suf.
Proof.
  intros H. unfold HasSuffix. cbn [String.length].
  replace (S (String.length s) - String.length suf)
    with (S (String.length s - String.length suf)) by lia.
  cbn [substring].
  replace (String.length suf <=? S (String.length s))%nat with true
    by (symmetry; apply Nat.leb_le; lia).
  replace (String.length suf <=? String.length s)%nat with true
    by (symmetry; apply Nat.leb_le; lia).
  reflexivity.
Qed.

Lemma HasSuffix_app_l (a b suf : string) :
  HasSuffix b suf = true -> HasSuffix (a ++ b)%string suf = true.
Proof.
  intros H. induction a as [|c a IH]; [exact H|].
  cbn [append]. rewrite HasSuffix_cons; [exact IH|].
  now apply HasSuffix_length.
Qed.

Lemma noBareLF_after_app (a b : string) : forall p,
  noBareLF_after p a = true -> noBareLF_after false b = true ->
  noBareLF_after p (a ++ b)%string = true.
Proof.
  induction a as [|c a IH]; intros p Ha Hb.
  - now apply noBareLF_after_weaken.
  - cbn [append noBareLF_after] in *. apply andb_true_iff in Ha as [Hc Ha].
    rewrite Hc. now apply IH.
Qed.

Lemma noBareLF_after_R2 (s : string) : forall p,
  noBareLF_after p (replace_from NL CRLF 0 s) = true.
Proof.
  induction s as [|c s IH]; intros p; [reflexivity|].
  destruct (Ascii.eqb_spec c LF) as [->|Hc].
  - rewrite R2_LF. cbn [noBareLF_after].
    replace (Ascii.eqb CR LF) with false by reflexivity.
    replace (Ascii.eqb CR CR) with true by reflexivity.
    replace (Ascii.eqb LF LF) with true by reflexivity.
    cbn. apply IH.
  - rewrite R2_other by assumption. cbn [noBareLF_after].
    destruct (Ascii.eqb_spec c LF); [contradiction|]. cbn. apply IH.
Qed.

Lemma crlfLine_app (a b : string) :
  noBareLF a = true -> crlfLine b = true -> crlfLine (a ++ b)%string = true.
Proof.
  unfold crlfLine, noBareLF. intros Ha Hb.
  apply andb_true_iff in Hb as [Hs Hb]. apply andb_true_iff. split.
  - now apply HasSuffix_app_l.
  - now apply noBareLF_after_app.
Qed.

(** Whatever the line, its normal form is in wire form. *)
Lemma normalizeLine_crlfLine (v : string) : crlfLine (normalizeLine v) = true.
Proof.
  unfold normalizeLine, Replace.
  set (x := replace_from NL CRLF 0 (replace_from CRLF NL 0 v)).
  assert (Hx : noBareLF x = true) by apply noBareLF_after_R2.
  destruct (HasSuffix x CRLF) eqn:E; cbn [negb].
  - unfold crlfLine. now rewrite E, Hx.
  - apply crlfLine_app; [exact Hx | reflexivity].
Qed.

Lemma crlfLine_noBareLF (v : string) : crlfLine v = true -> noBareLF v = true.
Proof. unfold crlfLine. intros H. now apply andb_true_iff in H. Qed.

Lemma Normalize_nonempty_crlfLine (v : string) (b : LineBuffer) :
  crlfLine (Normalize (v :: b)) = true.
Proof.
  revert v. induction b as [|w b IH]; intros v.
  - cbn [Normalize]. rewrite append_nil_r. apply normalizeLine_crlfLine.
  - change (Normalize (v :: w :: b))
      with (normalizeLine v ++ Normalize (w :: b))%string.
    apply crlfLine_app; [|apply IH].
    apply crlfLine_noBareLF, normalizeLine_crlfLine.
Qed.

(** Normalize is idempotent on every LineBuffer. *)
Lemma Normalize_again (b : LineBuffer) :
  Normalize (asLineBuffer (Normalize b)) = Normalize b.
Proof.
  destruct b as [|v b]; [reflexivity|].
  pose proof (Normalize_nonempty_crlfLine v b) as H.
  destruct (Normalize (v :: b)) as [|c s] eqn:E; [discriminate H|].
  cbn [asLineBuffer Normalize]. rewrite append_nil_r.
  now apply normalizeLine_fixed.
Qed.

(** C8. For a LineBuffer whose lines are all CRLF-terminated and without
    bare newlines, Normalize yields exactly the concatenation of the
    lines, and normalizing that result again yields the same bytes. *)
Theorem Normalize_idempotent (b : LineBuffer) :
  Forall (fun v => crlfLine v = true) b ->
  Normalize b = flatten b
  /\ Normalize (asLineBuffer (Normalize b)) = Normalize b.
Proof.
  intros H. split; [now apply Normalize_fixed | apply Normalize_again].
Qed.

Lemma Normalize_idempotent_witness :
  let b := [("GETINFO version" ++ CRLF)%string;
            ("a" ++ CRLF ++ "b" ++ String CR CRLF)%string] in
  Normalize b = flatten b
  /\ Normalize (asLineBuffer (Normalize b)) = Normalize b.
Proof.
  cbv zeta.
  apply (Normalize_idempotent
           [("GETINFO version" ++ CRLF)%string;
            ("a" ++ CRLF ++ "b" ++ String CR CRLF)%string]).
  repeat constructor.
Defined.

End NormalizeClaims.

(** ** The session: selection, Connect, Authenticate, Close *)
Section SessionFacts.

Variable AuthMethods : BaseControlResponse -> list string.
Variable AuthCookieFile : BaseControlResponse -> string.

Lemma offer_advertised (i : Authenticator) (methods : list string)
    (cur : option Authenticator) :
  offer i methods cur = if advertised methods i then Some i else cur.
Proof.
  unfold advertised. induction methods as [|v vs IH]; [reflexivity|].
  cbn [offer existsb]. destruct (String.eqb (MethodName i) v); cbn; [reflexivity|].
  exact IH.
Qed.

(** The loops of Connect keep the last advertised entry of the
    preferences, or the authenticator already set when there is none. *)
Lemma selectAuthenticator_last (prefs : list Authenticator) (methods : list string) :
  forall cur,
    selectAuthenticator prefs methods cur
    = match find (advertised methods) (rev prefs) with
      | Some a => Some a
      | None => cur
      end.
Proof.
  induction prefs as [|i prefs IH]; intros cur; [reflexivity|].
  cbn [selectAuthenticator rev]. rewrite IH, offer_advertised. clear IH.
  induction (rev prefs) as [|x xs IHx]; cbn.
  - destruct (advertised methods i); reflexivity.
  - destruct (advertised methods x); [reflexivity | exact IHx].
Qed.

Lemma set_isAuthenticated_same (c : Controller) :
  set_isAuthenticated (isAuthenticated c) c = c.
Proof. now destruct c. Qed.

(** A request on an open connection returns, leaves the controller as it
    is and writes the normalized request once. *)
Lemma Request_run (req : BaseControlRequest) (c : Controller) (w : World)
    (conn : Conn) :
  connection c = Some conn ->
  exists r w',
    Request req c w = Ok r c w'
    /\ files w' = files w
    /\ trace w' = trace w ++ [EvWrite conn (Normalize (Serialize req))].
Proof.
  intros Hc. unfold Request, bind, nextExchange, SendMessage, bind, self, emit, ret.
  destruct (exchanges w) as [|x xs]; cbn; rewrite Hc; cbn.
  - destruct (in_ c); eexists; eexists; repeat split.
  - destruct x; cbn; destruct (in_ c); eexists; eexists; repeat split.
Qed.

Lemma conclude_run (response : BaseControlResponse) (c : Controller) (w : World) :
  conclude response c w
  = Ok (if IsSuccess response then None else Some ErrAuthFailed)
       (set_isAuthenticated (IsSuccess response) c) w.
Proof.
  unfold conclude, bind, update, self, ret, IsAuthenticated. cbn.
  now destruct (IsSuccess response).
Qed.

(** The run returned with the controller as it was. *)
Ltac returns_unchanged Ht :=
  do 4 eexists; split; [reflexivity|];
  split; [symmetry; apply set_isAuthenticated_same|];
  split; [auto|split; [exact Ht|reflexivity]].

(** The run returned after assigning the authenticated flag. *)
Ltac returns_flagged Ht :=
  do 4 eexists; split; [reflexivity|];
  split; [reflexivity|];
  split; [cbn; congruence|split; [exact Ht|reflexivity]].

(** An exchange on an open connection returns. It changes nothing of the
    controller but the authenticated flag, a session unauthenticated
    before is unauthenticated after an error, and nothing is closed. *)
Lemma Authenticate_run (a : Authenticator) (protoinfo : BaseControlResponse)
    (c : Controller) (w : World) (conn : Conn) :
  connection c = Some conn ->
  exists e c' w' evs,
    Authenticate AuthCookieFile a protoinfo c w = Ok e c' w'
    /\ c' = set_isAuthenticated (isAuthenticated c') c
    /\ (e <> None -> isAuthenticated c = false -> isAuthenticated c' = false)
    /\ trace w' = trace w ++ evs
    /\ existsb is_close evs = false.
Proof.
  intros Hc.
  destruct a; cbn [Authenticate]; unfold bind, ReadFile, self, ret.
  - destruct (Request_run (NewRequest COMMAND_AUTHENTICATE) c w conn Hc)
      as (r & w' & Hr & _ & Ht).
    rewrite Hr. destruct r as [e|response]; [returns_unchanged Ht|].
    rewrite conclude_run. destruct (IsSuccess response); returns_flagged Ht.
  - destruct (files w (AuthCookieFile protoinfo)) as [cookie|].
    2:{ exists (Some ErrReadFile), c, w, []. rewrite app_nil_r.
        repeat split; auto using set_isAuthenticated_same. }
    destruct (Request_run (NewRequest ("AUTHENTICATE " ++ hex cookie)%string)
                c w conn Hc) as (r & w' & Hr & _ & Ht).
    rewrite Hr. destruct r as [e|response]; [returns_unchanged Ht|].
    cbv zeta. destruct (IsSuccess response) eqn:E; cbn [negb];
      [|returns_unchanged Ht].
    rewrite conclude_run, E. returns_flagged Ht.
  - destruct (Request_run
                (NewRequest ("AUTHENTICATE " ++ quote ++ Password c ++ quote)%string)
                c w conn Hc) as (r & w' & Hr & _ & Ht).
    rewrite Hr. destruct r as [e|response]; [returns_unchanged Ht|].
    cbv zeta. destruct (IsSuccess response) eqn:E; cbn [negb];
      [|returns_unchanged Ht].
    rewrite conclude_run, E. returns_flagged Ht.
  - exists (Some ErrNotImplemented), c, w, []. rewrite app_nil_r.
    repeat split; auto using set_isAuthenticated_same.
Qed.

End SessionFacts.

Section ConnectFacts.

Variable AuthMethods : BaseControlResponse -> list string.
Variable AuthCookieFile : BaseControlResponse -> string.

Lemma existsb_is_close_app (xs ys : list Event) :
  existsb is_close xs = false -> existsb is_close ys = false ->
  existsb is_close (xs ++ ys) = false.
Proof. intros Hx Hy. now rewrite existsb_app, Hx, Hy. Qed.

(** Every run of Connect that gets past the dial returns, and returns
    with the connection, the channel and the parser in place. *)
Lemma Connect_after_dial (c : Controller) (w : World) (conn : Conn) :
  IsConnected c = false ->
  Dialer c (network c) (hostport c) = Some conn ->
  exists r c' w' evs,
    Connect AuthMethods AuthCookieFile c w = Ok r c' w'
    /\ connection c' = Some conn
    /\ isConnected c' = true
    /\ in_ c' = ChanOpen
    /\ parser c' = Some NewParser
    /\ (r <> None -> isAuthenticated c = false -> isAuthenticated c' = false)
    /\ trace w' = trace w ++ evs
    /\ existsb is_close evs = false.
Proof.
  intros Hnc Hdial.
  unfold Connect, bind, self, emit, update, ProtocolInfo. rewrite Hnc, Hdial.
  set (c1 := established conn c).
  set (w1 := mkWorld _ _ _).
  assert (Ht1 : trace w1 = trace w ++ [EvDial (network c) (hostport c); EvGoParserRun]).
  { subst w1. cbn. now rewrite <- app_assoc. }
  destruct (Request_run (NewRequest COMMAND_PROTOCOLINFO) c1 w1 conn eq_refl)
    as (r & w2 & Hr & _ & Ht2).
  rewrite Hr. rewrite Ht1, <- app_assoc in Ht2.
  destruct r as [e|protoinfo].
  - exists (Some e), c1, w2. eexists. split; [reflexivity|].
    repeat split; [auto | exact Ht2 | reflexivity].
  - set (c2 := set_authenticator _ c1).
    destruct (authenticator c2) as [a|] eqn:Ea.
    + destruct (Authenticate_run AuthCookieFile a protoinfo c2 w2 conn eq_refl)
        as (e & c3 & w3 & evs & Ha & Hc3 & Hflag & Ht3 & Hclose).
      rewrite Ha. rewrite Ht2, <- app_assoc in Ht3.
      assert (Hfields : connection c3 = Some conn /\ isConnected c3 = true
                        /\ in_ c3 = ChanOpen /\ parser c3 = Some NewParser)
        by (rewrite Hc3; repeat split).
      destruct Hfields as (F1 & F2 & F3 & F4).
      destruct e as [e|].
      * exists (Some ErrAuthFailed), c3, w3. eexists. split; [reflexivity|].
        do 4 (split; [assumption|]). split; [|split; [exact Ht3|]].
        -- intros _ Hc. apply Hflag; [discriminate|exact Hc].
        -- apply existsb_is_close_app; [reflexivity|exact Hclose].
      * exists None, c3, w3. eexists. split; [reflexivity|].
        do 4 (split; [assumption|]). split; [|split; [exact Ht3|]].
        -- intros Hn. now destruct Hn.
        -- apply existsb_is_close_app; [reflexivity|exact Hclose].
    + exists (Some ErrNoMethod), c2, w2. eexists. split; [reflexivity|].
      repeat split; [auto | exact Ht2 | reflexivity].
Qed.

(** Connect always returns: none of its paths panics. *)
Lemma Connect_returns (c : Controller) (w : World) :
  exists r c' w', Connect AuthMethods AuthCookieFile c w = Ok r c' w'.
Proof.
  destruct (IsConnected c) eqn:Hc.
  - exists None, c, w. unfold Connect, bind, self. now rewrite Hc.
  - destruct (Dialer c (network c) (hostport c)) as [conn|] eqn:Hd.
    + destruct (Connect_after_dial c w conn Hc Hd) as (r & c' & w' & _ & H & _).
      now exists r, c', w'.
    + unfold Connect, bind, self, emit. rewrite Hc, Hd. now do 3 eexists.
Qed.

(** Connect keeps what Close relies on. *)
Lemma Connect_closable (c : Controller) (w : World) (r : option error)
    (c' : Controller) (w' : World) :
  closable c = true ->
  Connect AuthMethods AuthCookieFile c w = Ok r c' w' ->
  closable c' = true.
Proof.
  intros Hcl Hrun. destruct (IsConnected c) eqn:Hc.
  - unfold Connect, bind, self in Hrun. rewrite Hc in Hrun.
    injection Hrun as _ <- _. exact Hcl.
  - destruct (Dialer c (network c) (hostport c)) as [conn|] eqn:Hd.
    + destruct (Connect_after_dial c w conn Hc Hd)
        as (r0 & c0 & w0 & evs & H & F1 & _ & F3 & _).
      rewrite H in Hrun. injection Hrun as _ <- _.
      unfold closable. now rewrite F1, F3.
    + unfold Connect, bind, self, emit in Hrun. rewrite Hc, Hd in Hrun.
      injection Hrun as _ <- _. exact Hcl.
Qed.


End ConnectFacts.

Section SessionClaims.



(** C1, on the code. With the advertised methods HASHEDPASSWORD and NULL
    the first entry of the preferences [COOKIE, HASHEDPASSWORD, NULL] that
    is advertised is the password authenticator, yet the loops of Connect
    end with the open (NULL) authenticator selected: the break leaves the
    inner loop only, so a later advertised entry overwrites an earlier
    one. Connect then sends the bare AUTHENTICATE of the open
    authenticator. *)
Theorem selection_keeps_last_advertised :
  firstAdvertised authPrefs ["HASHEDPASSWORD"; "NULL"] = Some PasswordAuthenticator
  /\ selectAuthenticator authPrefs ["HASHEDPASSWORD"; "NULL"] None
     = Some OpenAuthenticator
  /\ exists c' w',
       Connect passwordOrNull cookiePath fresh
               (mkWorld [Replies protoinfoReply; Replies ok250] noFiles [])
       = Ok None c' w'
       /\ authenticator c' = Some OpenAuthenticator
       /\ trace w' = [EvDial "tcp" "127.0.0.1:9051"; EvGoParserRun;
                      EvWrite 7 ("PROTOCOLINFO" ++ CRLF)%string;
                      EvWrite 7 ("AUTHENTICATE" ++ CRLF)%string].
Proof.
  split; [reflexivity|]. split; [reflexivity|].
  do 2 eexists. split; [reflexivity|]. split; reflexivity.
Qed.

(** When exactly one entry of the preferences is advertised and no
    authenticator is set yet, that entry is the one selected. *)
Lemma selection_of_single_method :
  selectAuthenticator authPrefs ["COOKIE"] None = Some CookieAuthenticator
  /\ selectAuthenticator authPrefs ["HASHEDPASSWORD"] None = Some PasswordAuthenticator
  /\ selectAuthenticator authPrefs ["NULL"] None = Some OpenAuthenticator
  /\ selectAuthenticator authPrefs ["SAFECOOKIE"] None = None.
Proof. repeat split. Qed.

(** C4, on the code. A reply with the non-success status 515 to the
    password exchange, and to the cookie exchange, makes Authenticate
    return a nil error with the session left unauthenticated; Connect then
    returns nil as well. The open authenticator returns the
    authentication error for the same reply. *)
Theorem rejected_exchange_returns_nil :
  let c := established 7 fresh in
  let w := mkWorld [Replies bad515] cookieFiles [] in
  let protoinfo := NewResponse (NewRequest COMMAND_PROTOCOLINFO) protoinfoReply in
  IsSuccess (NewResponse (NewRequest COMMAND_AUTHENTICATE) bad515) = false
  /\ (exists w',
        Authenticate cookiePath PasswordAuthenticator protoinfo c w = Ok None c w'
        /\ IsAuthenticated c = false)
  /\ (exists w',
        Authenticate cookiePath CookieAuthenticator protoinfo c w = Ok None c w'
        /\ IsAuthenticated c = false)
  /\ (exists w',
        Authenticate cookiePath OpenAuthenticator protoinfo c w
        = Ok (Some ErrAuthFailed) c w')
  /\ (exists c' w',
        Connect passwordOnly cookiePath fresh
                (mkWorld [Replies protoinfoReply; Replies bad515] noFiles [])
        = Ok None c' w'
        /\ IsConnected c' = true /\ IsAuthenticated c' = false).
Proof.
  cbv zeta. split; [reflexivity|].
  split; [eexists; split; reflexivity|].
  split; [eexists; split; reflexivity|].
  split; [eexists; reflexivity|].
  do 2 eexists. split; [reflexivity|]. split; reflexivity.
Qed.

(** The open authenticator does what the claim says of every exchange:
    the flag is the success of the reply, and a reply without success is
    the authentication error. *)
Lemma Open_Authenticate_reply (AuthCookieFile : BaseControlResponse -> string)
    (protoinfo : BaseControlResponse) (c : Controller) (w : World)
    (conn : Conn) (b : ResponseBuffer) (rest : list Exchange) :
  connection c = Some conn -> in_ c = ChanOpen ->
  exchanges w = Replies b :: rest ->
  let response := NewResponse (NewRequest COMMAND_AUTHENTICATE) b in
  exists w',
    Authenticate AuthCookieFile OpenAuthenticator protoinfo c w
    = Ok (if IsSuccess response then None else Some ErrAuthFailed)
         (set_isAuthenticated (IsSuccess response) c) w'.
Proof.
  intros Hc Hi Hx response. cbn [Authenticate].
  unfold bind, Request, bind, nextExchange, SendMessage, bind, self, emit, ret.
  rewrite Hx. cbn. rewrite Hc. cbn. rewrite Hi.
  rewrite conclude_run. now eexists.
Qed.

(** The password authenticator with a reply that is no success: nil is
    returned and the controller is as before. *)
Lemma Password_Authenticate_rejected (AuthCookieFile : BaseControlResponse -> string)
    (protoinfo : BaseControlResponse) (c : Controller) (w : World)
    (conn : Conn) (b : ResponseBuffer) (rest : list Exchange) :
  connection c = Some conn -> in_ c = ChanOpen ->
  exchanges w = Replies b :: rest ->
  (300 <= EndStatus (EndReplyLine_ b) <= 599)%Z ->
  exists w',
    Authenticate AuthCookieFile PasswordAuthenticator protoinfo c w = Ok None c w'.
Proof.
  intros Hc Hi Hx Hs. cbn [Authenticate].
  unfold bind, Request, bind, nextExchange, SendMessage, bind, self, emit, ret.
  rewrite Hx. cbn. rewrite Hc. cbn. rewrite Hi.
  match goal with
  | |- context [IsSuccess ?r] =>
      replace (IsSuccess r) with false
        by (symmetry; apply (status_300_599_not_success r); exact Hs)
  end.
  now eexists.
Qed.

Lemma NewController_closable (dial : string -> string -> option Conn)
    (network hostport : string) :
  closable (NewController dial network hostport) = true.
Proof. reflexivity. Qed.

Lemma Close_not_connected (c : Controller) (w : World) :
  connection c = None -> Close c w = Ok tt c w.
Proof. intros H. unfold Close, bind, self. now rewrite H. Qed.

(** Close keeps what it relies on. *)
Lemma Close_closable (c : Controller) (w : World) (c1 : Controller) (w1 : World) :
  Close c w = Ok tt c1 w1 -> closable c1 = true /\ connection c1 = None.
Proof.
  unfold Close, bind, self, emit, update.
  destruct (connection c) as [conn|] eqn:Hc.
  - destruct (in_ c); try discriminate.
    intros H. injection H as <- _. split; reflexivity.
  - intros H. injection H as <- _. unfold closable. now rewrite Hc.
Qed.

(** C9. Close with no connection open is a no-op and does not fail; a
    first Close of an open connection closes the transport and the
    channel and resets the connected and authenticated flags, and a
    second Close right after it changes nothing and closes nothing. *)
Theorem Close_idempotent (c : Controller) (w : World) :
  closable c = true ->
  exists c1 w1,
    Close c w = Ok tt c1 w1
    /\ Close c1 w1 = Ok tt c1 w1
    /\ connection c1 = None
    /\ (connection c = None -> c1 = c /\ w1 = w)
    /\ (forall conn, connection c = Some conn ->
          IsConnected c1 = false /\ IsAuthenticated c1 = false
          /\ in_ c1 = ChanClosed
          /\ trace w1 = trace w ++ [EvConnClose conn; EvChanClose]).
Proof.
  intros Hcl. unfold closable in Hcl.
  destruct (connection c) as [conn|] eqn:Hc.
  - destruct (in_ c) eqn:Hi; try discriminate.
    exists (torn_down c).
    exists (mkWorld (exchanges w) (files w)
                    (trace w ++ [EvConnClose conn; EvChanClose])).
    split.
    { unfold Close, bind, self, emit, update. rewrite Hc, Hi. cbn.
      now rewrite <- app_assoc. }
    split; [now apply Close_not_connected|].
    split; [reflexivity|]. split; [discriminate|].
    intros conn' H. injection H as <-. repeat split.
  - exists c, w.
    split; [now apply Close_not_connected|].
    split; [now apply Close_not_connected|].
    split; [exact Hc|]. split; [now split|]. discriminate.
Qed.

Lemma Close_idempotent_witness :
  let c := established 7 fresh in
  let w := mkWorld [] noFiles [EvDial "tcp" "127.0.0.1:9051"; EvGoParserRun] in
  exists c1 w1,
    Close c w = Ok tt c1 w1
    /\ Close c1 w1 = Ok tt c1 w1
    /\ connection c1 = None
    /\ (connection c = None -> c1 = c /\ w1 = w)
    /\ (forall conn, connection c = Some conn ->
          IsConnected c1 = false /\ IsAuthenticated c1 = false
          /\ in_ c1 = ChanClosed
          /\ trace w1 = trace w ++ [EvConnClose conn; EvChanClose]).
Proof.
  cbv zeta.
  apply (Close_idempotent (established 7 fresh)
           (mkWorld [] noFiles [EvDial "tcp" "127.0.0.1:9051"; EvGoParserRun])).
  reflexivity.
Defined.

End SessionClaims.

(** ** Splitting at a byte, and what Atoi accepts *)
Section SplitFacts.

Lemma prefix_nil (s : string) : prefix EmptyString s = true.
Proof. now destruct s. Qed.

Lemma index_char_here (c : ascii) (b : string) :
  index 0 (String c EmptyString) (String c b) = Some 0.
Proof.
  cbn [index prefix]. destruct (ascii_dec c c) as [_|n]; [|now destruct n].
  now rewrite prefix_nil.
Qed.

Lemma index_char_skip (c d : ascii) (s : string) :
  d <> c ->
  index 0 (String c EmptyString) (String d s)
  = match index 0 (String c EmptyString) s with
    | Some n => Some (S n)
    | None => None
    end.
Proof.
  intros H. cbn [index prefix].
  destruct (ascii_dec c d) as [e|_]; [now destruct H|reflexivity].
Qed.

Lemma index_char_app (c : ascii) (a b : string) :
  lacks c a = true ->
  index 0 (String c EmptyString) (a ++ String c b)%string = Some (String.length a).
Proof.
  induction a as [|d a IH]; intros H.
  - apply index_char_here.
  - cbn [lacks] in H. apply andb_true_iff in H as [Hd H].
    cbn [append String.length]. rewrite index_char_skip.
    + now rewrite IH.
    + intros ->. now rewrite Ascii.eqb_refl in Hd.
Qed.

Lemma index_char_none (c : ascii) (s : string) :
  lacks c s = true -> index 0 (String c EmptyString) s = None.
Proof.
  induction s as [|d s IH]; intros H; [reflexivity|].
  cbn [lacks] in H. apply andb_true_iff in H as [Hd H].
  rewrite index_char_skip.
  - now rewrite IH.
  - intros ->. now rewrite Ascii.eqb_refl in Hd.
Qed.

Lemma substring_all (s : string) : substring 0 (String.length s) s = s.
Proof. induction s as [|c s IH]; cbn; [reflexivity | now rewrite IH]. Qed.

Lemma substring_skip_more (a s : string) (n m : nat) :
  substring (String.length a + n) m (a ++ s)%string = substring n m s.
Proof. induction a as [|c a IH]; cbn; [reflexivity | exact IH]. Qed.

(** Splitting at the first occurrence of a byte. *)
Lemma SplitN2_char (c : ascii) (a b : string) :
  lacks c a = true ->
  SplitN2 (a ++ String c b)%string (String c EmptyString) = [a; b].
Proof.
  intros H. unfold SplitN2. rewrite (index_char_app c a b H).
  rewrite substring_take. cbn [String.length].
  rewrite substring_skip_more, length_app. cbn [String.length substring].
  replace (String.length a + S (String.length b) - (String.length a + 1))
    with (String.length b) by lia.
  now rewrite substring_all.
Qed.

Lemma SplitN2_none (c : ascii) (s : string) :
  lacks c s = true -> SplitN2 s (String c EmptyString) = [s].
Proof. intros H. unfold SplitN2. now rewrite (index_char_none c s H). Qed.

(** A byte that occurs is found. *)
Lemma index_char_found (c : ascii) (s : string) :
  lacks c s = false -> exists i, index 0 (String c EmptyString) s = Some i.
Proof.
  induction s as [|d s IH]; intros H; [discriminate|].
  cbn [lacks] in H. destruct (Ascii.eqb_spec d c) as [->|Hd].
  - exists 0. apply index_char_here.
  - cbn in H. destruct (IH H) as [i Hi]. exists (S i).
    now rewrite index_char_skip, Hi.
Qed.

Lemma SplitN2_two (c : ascii) (s : string) :
  lacks c s = false ->
  exists a b, SplitN2 s (String c EmptyString) = [a; b].
Proof.
  intros H. destruct (index_char_found c s H) as [i Hi].
  unfold SplitN2. rewrite Hi. now do 2 eexists.
Qed.

(** Atoi on a non-empty string, by its first byte. *)
Lemma Atoi_cons (a : ascii) (r : string) :
  Atoi (String a r)
  = let body := if (Ascii.eqb a "-" || Ascii.eqb a "+")%bool then r
                else String a r in
    match body with
    | EmptyString => None
    | _ =>
        match digits 0 body with
        | Some n =>
            let v := if Ascii.eqb a "-" then (- n)%Z else n in
            if ((minInt <=? v) && (v <=? maxInt))%Z then Some v else None
        | None => None
        end
    end.
Proof.
  destruct a as [b0 b1 b2 b3 b4 b5 b6 b7].
  destruct b0, b1, b2, b3, b4, b5, b6, b7; reflexivity.
Qed.

Lemma digits_lacks (c : ascii) (s : string) : forall acc n,
  digit c = None -> digits acc s = Some n -> lacks c s = true.
Proof.
  induction s as [|d s IH]; intros acc n Hc H; [reflexivity|].
  cbn [digits] in H. destruct (digit d) as [v|] eqn:Hd; [|discriminate].
  cbn [lacks]. rewrite (IH _ _ Hc H), andb_true_r.
  destruct (Ascii.eqb_spec d c) as [->|_]; [congruence|reflexivity].
Qed.

(** What Atoi accepts holds no byte other than digits, but for a sign in
    front. *)
Lemma Atoi_lacks (c : ascii) (s : string) (v : Z) :
  digit c = None -> get 0 s <> Some c -> Atoi s = Some v -> lacks c s = true.
Proof.
  intros Hc H0 H. destruct s as [|a r]; [reflexivity|].
  rewrite Atoi_cons in H. cbv zeta in H.
  assert (Ha : Ascii.eqb a c = false).
  { destruct (Ascii.eqb_spec a c) as [->|_]; [now destruct H0|reflexivity]. }
  cbn [lacks]. rewrite Ha. cbn [negb andb].
  destruct (Ascii.eqb a "-" || Ascii.eqb a "+")%bool.
  - destruct r as [|d r]; [discriminate|].
    destruct (digits 0 (String d r)) as [n|] eqn:Hd; [|discriminate].
    now apply (digits_lacks c _ 0%Z n).
  - destruct (digits 0 (String a r)) as [n|] eqn:Hd; [|discriminate].
    pose proof (digits_lacks c _ 0%Z n Hc Hd) as Hl.
    cbn [lacks] in Hl. now apply andb_true_iff in Hl.
Qed.

End SplitFacts.

(** ** The accessors on the lines the parser accepts *)
Section AccessorFacts.

(** A reply line is three bytes that Atoi accepts, a fourth byte, and at
    least one more. *)
Lemma reply_line_shape (ln : string) :
  isReplyLine ln = true ->
  exists c0 c1 c2 c3 d r v,
    ln = String c0 (String c1 (String c2 (String c3 (String d r))))
    /\ Atoi (String c0 (String c1 (String c2 EmptyString))) = Some v.
Proof.
  unfold isReplyLine. destruct (String.length ln <? 5)%nat eqn:E; [discriminate|].
  apply Nat.ltb_ge in E.
  destruct ln as [|c0 [|c1 [|c2 [|c3 [|d r]]]]]; cbn in E; try lia.
  cbn [substring]. destruct r; cbn [substring];
    (destruct (Atoi (String c0 (String c1 (String c2 EmptyString)))) as [v|] eqn:Ha;
     [|discriminate]); intros _; now exists c0, c1, c2, c3, d; eexists; exists v.
Qed.

(** Where the separator is no digit and not the first byte, the split at
    the separator is the split after the three bytes of the code. *)
Lemma reply_line_split (sep : ascii) (ln : string) :
  isReplyLine ln = true -> byte3_is ln sep = true ->
  digit sep = None -> get 0 ln <> Some sep ->
  exists v,
    Atoi (substring 0 3 ln) = Some v
    /\ SplitN2 ln (String sep EmptyString)
       = [substring 0 3 ln; substring 4 (String.length ln - 4) ln].
Proof.
  intros Hr H3 Hd H0.
  destruct (reply_line_shape ln Hr) as (c0 & c1 & c2 & c3 & d & r & v & -> & Ha).
  unfold byte3_is in H3. cbn [get] in H3.
  destruct (Ascii.eqb_spec c3 sep) as [->|]; [|discriminate].
  assert (Hl : lacks sep (String c0 (String c1 (String c2 EmptyString))) = true).
  { apply (Atoi_lacks sep _ v Hd); [exact H0 | exact Ha]. }
  exists v. split.
  - cbn [substring]. destruct r; exact Ha.
  - change (String c0 (String c1 (String c2 (String sep (String d r)))))
      with (String c0 (String c1 (String c2 EmptyString)) ++ String sep (String d r))%string.
    rewrite (SplitN2_char sep _ (String d r) Hl).
    cbn [append String.length Nat.sub substring].
    now rewrite substring_all.
Qed.

Lemma Atoi_not_space (c1 c2 : ascii) :
  Atoi (String " " (String c1 (String c2 EmptyString))) = None.
Proof. rewrite Atoi_cons. reflexivity. Qed.

(** The fourth byte occurs in the line. *)
Lemma byte3_occurs (ln : string) (c : ascii) :
  byte3_is ln c = true -> lacks c ln = false.
Proof.
  unfold byte3_is.
  destruct ln as [|c0 [|c1 [|c2 [|c3 r]]]]; cbn [get]; try discriminate.
  destruct (Ascii.eqb_spec c3 c) as [->|]; [|discriminate]. intros _.
  cbn [lacks]. rewrite Ascii.eqb_refl. cbn. now rewrite !andb_false_r.
Qed.

Lemma isEndReplyLine_parts (ln : string) :
  isEndReplyLine ln = true -> isReplyLine ln = true /\ byte3_is ln " " = true.
Proof.
  unfold isEndReplyLine.
  destruct (isReplyLine ln), (byte3_is ln " "); cbn; try discriminate. now split.
Qed.

Lemma isMidReplyLine_parts (ln : string) :
  isMidReplyLine ln = true -> isReplyLine ln = true /\ byte3_is ln "-" = true.
Proof.
  unfold isMidReplyLine.
  destruct (isReplyLine ln), (byte3_is ln "-"); cbn; try discriminate. now split.
Qed.

Lemma isDataReplyLine_parts (ln : string) :
  isDataReplyLine ln = true -> isReplyLine ln = true /\ byte3_is ln "+" = true.
Proof.
  unfold isDataReplyLine.
  destruct (isReplyLine ln), (byte3_is ln "+"); cbn; try discriminate. now split.
Qed.

Lemma end_reply_line_split (ln : string) :
  isEndReplyLine ln = true ->
  exists v,
    Atoi (substring 0 3 ln) = Some v
    /\ SplitN2 ln " " = [substring 0 3 ln; substring 4 (String.length ln - 4) ln].
Proof.
  intros H. destruct (isEndReplyLine_parts ln H) as [Hr H3].
  assert (H0 : get 0 ln <> Some " "%char).
  { destruct (reply_line_shape ln Hr) as (c0 & c1 & c2 & c3 & d & r & v & -> & Ha).
    cbn [get]. intros E. injection E as ->. now rewrite Atoi_not_space in Ha. }
  exact (reply_line_split " " ln Hr H3 eq_refl H0).
Qed.

(** X1. The accessors of an end-reply line the parser accepts. Status is
    the integer of its first three bytes and StatusText is everything
    after the fourth byte; neither panics nor falls back to -1. *)
Theorem EndReplyLine_accessors (ln : string) :
  isEndReplyLine ln = true ->
  exists v,
    Atoi (substring 0 3 ln) = Some v
    /\ EndStatus ln = v
    /\ EndReplyLine_StatusText ln = Some (substring 4 (String.length ln - 4) ln).
Proof.
  intros H. destruct (end_reply_line_split ln H) as (v & Ha & Hs).
  exists v. split; [exact Ha|].
  unfold EndStatus, EndReplyLine_StatusText, _status_parts.
  rewrite Hs. cbn [hd nth_error]. now rewrite Ha.
Qed.

Lemma EndReplyLine_accessors_witness :
  exists v,
    Atoi (substring 0 3 "552 Unrecognized key") = Some v
    /\ EndStatus "552 Unrecognized key" = v
    /\ EndReplyLine_StatusText "552 Unrecognized key"
       = Some (substring 4 (String.length "552 Unrecognized key" - 4)
                         "552 Unrecognized key").
Proof. apply (EndReplyLine_accessors "552 Unrecognized key"). reflexivity. Defined.

(** X2. The accessors of a mid-reply line the parser accepts, when its
    code carries no minus sign: Status is the integer of the first three
    bytes and Text is everything after the fourth byte. *)
Theorem MidReplyLine_accessors (ln : string) :
  isMidReplyLine ln = true ->
  get 0 ln <> Some "-"%char ->
  exists v,
    Atoi (substring 0 3 ln) = Some v
    /\ MidReplyLine_Status ln = v
    /\ MidReplyLine_Text ln = Some (substring 4 (String.length ln - 4) ln).
Proof.
  intros H H0. destruct (isMidReplyLine_parts ln H) as [Hr H3].
  destruct (reply_line_split "-" ln Hr H3 eq_refl H0) as (v & Ha & Hs).
  exists v. split; [exact Ha|].
  unfold MidReplyLine_Status, MidReplyLine_Text, MidReplyLine_parts.
  change "-"%string with (String "-" EmptyString).
  rewrite Hs. cbn [hd nth_error]. now rewrite Ha.
Qed.

Lemma MidReplyLine_accessors_witness :
  exists v,
    Atoi (substring 0 3 "250-version=0.2.7.6") = Some v
    /\ MidReplyLine_Status "250-version=0.2.7.6" = v
    /\ MidReplyLine_Text "250-version=0.2.7.6"
       = Some (substring 4 (String.length "250-version=0.2.7.6" - 4)
                         "250-version=0.2.7.6").
Proof.
  apply (MidReplyLine_accessors "250-version=0.2.7.6").
  - reflexivity.
  - discriminate.
Defined.

(** X3. A line whose code carries a minus sign, such as "-12-text", is a
    mid-reply line for the parser, but its accessors split at the sign:
    Status falls back to -1 and Text is everything after the sign, the
    digits of the code included. *)
Theorem MidReplyLine_signed_code (ln : string) :
  isMidReplyLine ln = true ->
  get 0 ln = Some "-"%char ->
  MidReplyLine_Status ln = (-1)%Z
  /\ MidReplyLine_Text ln = Some (substring 1 (String.length ln - 1) ln).
Proof.
  intros _ H0. destruct ln as [|c r]; [discriminate|].
  cbn [get] in H0. injection H0 as ->.
  unfold MidReplyLine_Status, MidReplyLine_Text, MidReplyLine_parts.
  change "-"%string with (String "-" EmptyString).
  change (String "-" r) with (EmptyString ++ String "-" r)%string.
  rewrite (SplitN2_char "-" EmptyString r eq_refl).
  cbn [hd nth_error append String.length substring Nat.sub].
  rewrite Nat.sub_0_r, substring_all. now split.
Qed.

Lemma MidReplyLine_signed_code_witness :
  isMidReplyLine "-12-text" = true
  /\ MidReplyLine_Status "-12-text" = (-1)%Z
  /\ MidReplyLine_Text "-12-text" = Some "12-text".
Proof.
  split; [reflexivity|].
  apply (MidReplyLine_signed_code "-12-text"); reflexivity.
Defined.

(** X4. The accessors of a data block whose data-reply line the parser
    accepts, when its code carries no plus sign: Status is the integer of
    the first three bytes of that line and Text is everything after its
    fourth byte. *)
Theorem DataReplyLine_accessors (hdr : string) (body : list string) :
  isDataReplyLine hdr = true ->
  get 0 hdr <> Some "+"%char ->
  exists v,
    Atoi (substring 0 3 hdr) = Some v
    /\ DataReplyLine_Status (hdr :: body) = Some v
    /\ DataReplyLine_Text (hdr :: body)
       = Some (substring 4 (String.length hdr - 4) hdr).
Proof.
  intros H H0. destruct (isDataReplyLine_parts hdr H) as [Hr H3].
  destruct (reply_line_split "+" hdr Hr H3 eq_refl H0) as (v & Ha & Hs).
  exists v. split; [exact Ha|].
  unfold DataReplyLine_Status, DataReplyLine_Text, DataReplyLine_parts.
  change "+"%string with (String "+" EmptyString).
  rewrite Hs. cbn [hd nth_error]. now rewrite Ha.
Qed.

Lemma DataReplyLine_accessors_witness :
  exists v,
    Atoi (substring 0 3 "250+info/names=") = Some v
    /\ DataReplyLine_Status ["250+info/names="; "foo Description"] = Some v
    /\ DataReplyLine_Text ["250+info/names="; "foo Description"]
       = Some (substring 4 (String.length "250+info/names=" - 4) "250+info/names=").
Proof.
  apply (DataReplyLine_accessors "250+info/names=" ["foo Description"]).
  - reflexivity.
  - discriminate.
Defined.

End AccessorFacts.

(** ** What the parser keeps and what it posts *)
Section ParserInvariant.

Lemma forallb_snoc {A : Type} (f : A -> bool) (l : list A) (x : A) :
  forallb f (l ++ [x]) = forallb f l && f x.
Proof. rewrite forallb_app. cbn. now rewrite andb_true_r. Qed.

Lemma wfData_snoc (d : DataReplyLine) (ln : string) :
  wfData d = true -> isEndOfData ln = false -> wfData (d ++ [ln]) = true.
Proof.
  destruct d as [|hdr body]; [discriminate|]. cbn [wfData app].
  intros H Hl. apply andb_true_iff in H as [Hh Hb].
  now rewrite Hh, forallb_snoc, Hb, Hl.
Qed.

Lemma wfParser_Reset (p : Parser) : wfParser (Reset p) = true.
Proof. reflexivity. Qed.

(** One accepted line keeps the state well-formed, and a buffer it posts
    is well-formed. *)
Lemma accept_wf (p : Parser) (ln : string) :
  wfParser p = true ->
  wfParser (fst (accept p ln)) = true
  /\ forallb wfBuffer (snd (accept p ln)) = true.
Proof.
  destruct p as [[mids data e] d raw rdy ml].
  unfold wfParser. cbn [buffer dataReplyLine isReady isMultiLine
                        MidReplyLines DataReplyLines].
  intros H.
  apply andb_true_iff in H as [H Hd]. apply andb_true_iff in H as [H Hf].
  apply andb_true_iff in H as [Hm Hb]. apply Bool.eqb_prop in Hf. subst ml.
  unfold accept, post, Reset, set_end, add_mid, add_data, wfBuffer.
  cbn [isReady buffer dataReplyLine bufferRaw isMultiLine
       MidReplyLines DataReplyLines EndReplyLine_].
  destruct rdy; cbn [negb].
  - destruct (isEndReplyLine ln) eqn:He.
    { cbn [fst snd forallb buffer dataReplyLine isReady isMultiLine
           MidReplyLines DataReplyLines EndReplyLine_ emptyBuffer].
      rewrite Hm, Hb, He. now split. }
    destruct (isMidReplyLine ln) eqn:Hmid.
    { cbn [fst snd forallb buffer dataReplyLine isReady isMultiLine
           MidReplyLines DataReplyLines EndReplyLine_].
      rewrite forallb_snoc, Hm, Hmid, Hb. now split. }
    destruct (isDataReplyLine ln) eqn:Hdat.
    { cbn [fst snd forallb buffer dataReplyLine isReady isMultiLine
           MidReplyLines DataReplyLines EndReplyLine_ wfData].
      rewrite Hm, Hb, Hdat. now split. }
    now split.
  - destruct (isEndOfData ln) eqn:Hl;
      cbn [negb fst snd forallb buffer dataReplyLine isReady isMultiLine
           MidReplyLines DataReplyLines EndReplyLine_].
    + rewrite Hm, forallb_snoc, Hb, Hd. now split.
    + rewrite Hm, Hb, (wfData_snoc _ _ Hd Hl). now split.
Qed.

Lemma iteration_wf (p : Parser) (r : ReadResult) :
  wfParser p = true ->
  wfParser (fst (iteration p r)) = true
  /\ forallb wfBuffer (snd (iteration p r)) = true.
Proof.
  intros H. destruct r as [ln|]; cbn [iteration]; [|now split].
  destruct (negb (HasSuffix ln CRLF)); [now split|]. now apply accept_wf.
Qed.

Lemma Run_wf (reads : list ReadResult) : forall p,
  wfParser p = true ->
  wfParser (fst (Run p reads)) = true
  /\ forallb wfBuffer (snd (Run p reads)) = true.
Proof.
  induction reads as [|r reads IH]; intros p H; [now split|].
  cbn [Run]. destruct (iteration_wf p r H) as [H1 H2].
  destruct (iteration p r) as [p1 o1]. cbn [fst snd] in H1, H2.
  destruct (IH p1 H1) as [H3 H4].
  destruct (Run p1 reads) as [p2 o2]. cbn [fst snd] in *.
  split; [exact H3|]. now rewrite forallb_app, H2, H4.
Qed.

(** X5. Whatever the parser reads, the two flags of its state stay
    complementary and all it has accumulated and all it posts is
    well-formed: every mid-reply line of a posted buffer is one
    isMidReplyLine accepts, every data block starts with a line
    isDataReplyLine accepts and holds no "." line, and the end-reply line
    is one isEndReplyLine accepts. *)
Theorem parser_posts_wellformed_buffers (reads : list ReadResult) :
  wfParser (fst (Run NewParser reads)) = true
  /\ isMultiLine (fst (Run NewParser reads)) = negb (isReady (fst (Run NewParser reads)))
  /\ forallb wfBuffer (snd (Run NewParser reads)) = true.
Proof.
  destruct (Run_wf reads NewParser eq_refl) as [H1 H2].
  split; [exact H1|]. split; [|exact H2].
  unfold wfParser in H1.
  apply andb_true_iff in H1 as [H1 _]. apply andb_true_iff in H1 as [_ H1].
  now apply Bool.eqb_prop in H1.
Qed.

Lemma Text_of_separated (ln : string) (c : ascii) :
  byte3_is ln c = true ->
  exists t, nth_error (SplitN2 ln (String c EmptyString)) 1 = Some t.
Proof.
  intros H. destruct (SplitN2_two c ln (byte3_occurs ln c H)) as (a & b & E).
  rewrite E. now exists b.
Qed.

(** X6. On a buffer the parser posts, the accessors that index or slice
    do not panic: StatusText of the end-reply line, Text of every
    mid-reply line, and Text and the body [l[1:]] of every data block all
    return. *)
Theorem posted_buffer_accessors_return (reads : list ReadResult) (b : ResponseBuffer) :
  In b (snd (Run NewParser reads)) ->
  (exists t, EndReplyLine_StatusText (EndReplyLine_ b) = Some t)
  /\ (forall l, In l (MidReplyLines b) -> exists t, MidReplyLine_Text l = Some t)
  /\ (forall d, In d (DataReplyLines b) ->
        exists t body, DataReplyLine_Text d = Some t
                       /\ DataReplyLine_rest d = Some body).
Proof.
  intros Hin.
  destruct (Run_wf reads NewParser eq_refl) as [_ Hall].
  rewrite forallb_forall in Hall. specialize (Hall b Hin).
  unfold wfBuffer in Hall.
  apply andb_true_iff in Hall as [Hall He]. apply andb_true_iff in Hall as [Hm Hd].
  rewrite forallb_forall in Hm, Hd.
  split; [|split].
  - destruct (isEndReplyLine_parts _ He) as [_ H3].
    now apply (Text_of_separated _ " ").
  - intros l Hl. destruct (isMidReplyLine_parts _ (Hm l Hl)) as [_ H3].
    now apply (Text_of_separated _ "-").
  - intros d Hdin. specialize (Hd d Hdin).
    destruct d as [|hdr body]; [discriminate|]. cbn [wfData] in Hd.
    apply andb_true_iff in Hd as [Hh _].
    destruct (isDataReplyLine_parts _ Hh) as [_ H3].
    destruct (Text_of_separated _ "+" H3) as [t Ht].
    exists t, body. now split.
Qed.

Lemma posted_buffer_accessors_return_witness :
  let b := mkResponseBuffer ["250-version=1.0"] [["250+info/names="; "foo"]] "250 OK" in
  (exists t, EndReplyLine_StatusText (EndReplyLine_ b) = Some t)
  /\ (forall l, In l (MidReplyLines b) -> exists t, MidReplyLine_Text l = Some t)
  /\ (forall d, In d (DataReplyLines b) ->
        exists t body, DataReplyLine_Text d = Some t
                       /\ DataReplyLine_rest d = Some body).
Proof.
  cbv zeta.
  apply (posted_buffer_accessors_return
           [wire "250-version=1.0"; wire "250+info/names="; wire "foo"; wire ".";
            wire "250 OK"]).
  vm_compute. left. reflexivity.
Defined.

Lemma accept_posts_on_end (p : Parser) (ln : string) :
  isEndReplyLine ln = false -> snd (accept p ln) = [].
Proof.
  intros H. unfold accept. cbn [isReady]. rewrite H.
  destruct (isReady p); [|destruct (isMultiLine p)].
  - destruct (isMidReplyLine ln); [reflexivity|].
    now destruct (isDataReplyLine ln).
  - now destruct (negb (isEndOfData ln)).
  - reflexivity.
Qed.

Lemma accept_posts_at_most_one (p : Parser) (ln : string) :
  List.length (snd (accept p ln)) <= 1.
Proof.
  unfold accept. cbn [isReady].
  destruct (isReady p); [|destruct (isMultiLine p)].
  - destruct (isEndReplyLine ln); [cbn; lia|].
    destruct (isMidReplyLine ln); [cbn; lia|].
    destruct (isDataReplyLine ln); cbn; lia.
  - destruct (negb (isEndOfData ln)); cbn; lia.
  - cbn; lia.
Qed.

(** X7. The parser posts a buffer only when it reads an end-reply line:
    whatever the state it starts in, the number of buffers posted is at
    most the number of reads that are end-reply lines with their CRLF. *)
Theorem posts_bounded_by_end_lines (p : Parser) (reads : list ReadResult) :
  List.length (snd (Run p reads)) <= List.length (filter readsEnd reads).
Proof.
  revert p. induction reads as [|r reads IH]; intros p; [cbn; lia|].
  cbn [Run filter].
  assert (H : List.length (snd (iteration p r)) <= if readsEnd r then 1 else 0).
  { destruct r as [ln|]; cbn [iteration readsEnd]; [|cbn; lia].
    destruct (HasSuffix ln CRLF); cbn [negb andb]; [|cbn; lia].
    destruct (isEndReplyLine (TrimSuffix ln CRLF)) eqn:E.
    - apply accept_posts_at_most_one.
    - rewrite accept_posts_on_end by assumption. cbn; lia. }
  destruct (iteration p r) as [p1 o1]. cbn [snd] in H.
  specialize (IH p1). destruct (Run p1 reads) as [p2 o2]. cbn [snd] in *.
  rewrite List.length_app. destruct (readsEnd r); cbn [List.length]; lia.
Qed.

End ParserInvariant.

(** ** Whole messages, one after the other *)
Section MessageFacts.

Lemma not_end_of_data (l : string) : negb (isEndOfData l) = true -> l <> ".".
Proof. intros H ->. discriminate H. Qed.

Lemma body_without_dot (body : list string) :
  forallb (fun l => negb (isEndOfData l)) body = true ->
  Forall (fun l => l <> ".") body.
Proof.
  intros H. rewrite forallb_forall in H. apply Forall_forall.
  intros l Hl. now apply not_end_of_data, H.
Qed.

Lemma Run_item (i : Item) (p : Parser) :
  isReady p = true -> isMultiLine p = false -> wfItem i = true ->
  exists d raw,
    Run p (map wire (itemLines i))
    = (mkParser (extend (buffer p) i) d raw true false, []).
Proof.
  intros Hr Hml Hi. destruct i as [l|hdr body]; cbn [wfItem itemLines] in *.
  - exists (dataReplyLine p), (bufferRaw p ++ [l]).
    cbn [map]. rewrite Run_cons_wire. unfold accept.
    cbn [isReady buffer dataReplyLine bufferRaw isMultiLine].
    rewrite Hr, (mid_not_end l Hi), Hi, Hml. reflexivity.
  - cbn [wfData] in Hi. apply andb_true_iff in Hi as [Hh Hb].
    destruct (data_not_end_mid hdr Hh) as [Hne Hnm].
    exists (hdr :: body), (bufferRaw p ++ [hdr] ++ body ++ ["."]).
    cbn [map]. rewrite Run_cons_wire.
    assert (Ha : accept p hdr
                 = (mkParser (buffer p) [hdr] (bufferRaw p ++ [hdr]) false true, [])).
    { unfold accept. cbn [isReady buffer dataReplyLine bufferRaw isMultiLine].
      rewrite Hr, Hne, Hnm, Hh. reflexivity. }
    rewrite Ha. cbn [fst snd]. rewrite map_app, Run_app.
    rewrite (Run_body body (mkParser (buffer p) [hdr] (bufferRaw p ++ [hdr]) false true));
      [|reflexivity|reflexivity|now apply body_without_dot].
    cbn [fst snd map app buffer dataReplyLine bufferRaw]. rewrite Run_cons_wire.
    unfold accept. cbn [isReady buffer dataReplyLine bufferRaw isMultiLine].
    replace (isEndOfData ".") with true by reflexivity.
    cbn [negb fst snd Run app]. now rewrite <- !app_assoc.
Qed.

Lemma Run_items (items : list Item) : forall p,
  isReady p = true -> isMultiLine p = false ->
  forallb wfItem items = true ->
  exists d raw,
    Run p (map wire (flat_map itemLines items))
    = (mkParser (mkResponseBuffer (MidReplyLines (buffer p) ++ midsOf items)
                                  (DataReplyLines (buffer p) ++ blocksOf items)
                                  (EndReplyLine_ (buffer p)))
                d raw true false, []).
Proof.
  induction items as [|i items IH]; intros p Hr Hml Hall.
  - exists (dataReplyLine p), (bufferRaw p). cbn. rewrite !app_nil_r.
    destruct p as [[? ? ?] ? ? ? ?]. cbn in *. now subst.
  - cbn [forallb] in Hall. apply andb_true_iff in Hall as [Hi Hall].
    destruct (Run_item i p Hr Hml Hi) as (d1 & raw1 & H1).
    cbn [flat_map]. rewrite map_app, Run_app, H1. cbn [fst snd].
    destruct (IH (mkParser (extend (buffer p) i) d1 raw1 true false)
                 eq_refl eq_refl Hall) as (d2 & raw2 & H2).
    rewrite H2. cbn [fst snd app]. exists d2, raw2. f_equal. f_equal.
    destruct i; cbn; now rewrite <- !app_assoc.
Qed.

Lemma Run_msg (m : Msg) (p : Parser) :
  isReady p = true -> isMultiLine p = false -> wfMsg m = true ->
  exists d,
    Run p (map wire (msgLines m))
    = (mkParser emptyBuffer d [] true false,
       [mkResponseBuffer (MidReplyLines (buffer p) ++ midsOf (fst m))
                         (DataReplyLines (buffer p) ++ blocksOf (fst m))
                         (snd m)]).
Proof.
  intros Hr Hml Hm. unfold wfMsg in Hm. apply andb_true_iff in Hm as [Hi He].
  destruct (Run_items (fst m) p Hr Hml Hi) as (d & raw & H).
  exists d. unfold msgLines. rewrite map_app, Run_app, H. cbn [fst snd map].
  rewrite Run_cons_wire. unfold accept.
  cbn [isReady buffer dataReplyLine bufferRaw isMultiLine]. rewrite He.
  reflexivity.
Qed.

(** X8. A sequence of messages, each any mix of mid-reply lines and data
    blocks closed by its end-reply line, read by a new parser one after
    the other, is posted as one buffer per message, in order; the buffer
    of a message holds its mid-reply lines in order, its data blocks in
    order (each the data-reply line and the body without the "."), and
    its end-reply line. Nothing of one message leaks into the next. *)
Theorem messages_posted_in_order (msgs : list Msg) :
  forallb wfMsg msgs = true ->
  snd (Run NewParser (map wire (flat_map msgLines msgs))) = map bufferOf msgs.
Proof.
  intros H.
  cut (forall p, isReady p = true -> isMultiLine p = false ->
                 buffer p = emptyBuffer ->
                 snd (Run p (map wire (flat_map msgLines msgs))) = map bufferOf msgs).
  { intros G. now apply G. }
  induction msgs as [|m msgs IH]; intros p Hr Hml Hb; [reflexivity|].
  cbn [forallb] in H. apply andb_true_iff in H as [Hm Hall].
  destruct (Run_msg m p Hr Hml Hm) as (d & Hrun).
  cbn [flat_map map]. rewrite map_app, Run_app, Hrun. cbn [fst snd].
  rewrite (IH Hall (mkParser emptyBuffer d [] true false) eq_refl eq_refl eq_refl).
  rewrite Hb. reflexivity.
Qed.

Lemma messages_posted_in_order_witness :
  snd (Run NewParser
         (map wire
            (flat_map msgLines
               [([ItemMid "250-version=1.0";
                  ItemData "250+info/names=" ["foo Description"; "250 OK"];
                  ItemMid "250-done=1"], "250 OK");
                ([], "650 CIRC 1 BUILT")])))
  = [mkResponseBuffer ["250-version=1.0"; "250-done=1"]
                      [["250+info/names="; "foo Description"; "250 OK"]] "250 OK";
     mkResponseBuffer [] [] "650 CIRC 1 BUILT"].
Proof.
  apply (messages_posted_in_order
           [([ItemMid "250-version=1.0";
              ItemData "250+info/names=" ["foo Description"; "250 OK"];
              ItemMid "250-done=1"], "250 OK");
            ([], "650 CIRC 1 BUILT")]).
  vm_compute. reflexivity.
Defined.

End MessageFacts.

(** ** Looking values up in a reply *)
Section LookupFacts.

Lemma append_not_empty (a b : string) (c : ascii) :
  String.eqb (a ++ String c b)%string EmptyString = false.
Proof. now destruct a. Qed.

Lemma prefix_app (a b : string) : prefix a (a ++ b)%string = true.
Proof.
  induction a as [|c a IH]; [apply prefix_nil|].
  cbn [append prefix]. destruct (ascii_dec c c) as [_|n]; [exact IH|now destruct n].
Qed.

Lemma prefix_split (a s : string) :
  prefix a s = true -> exists r, s = (a ++ r)%string.
Proof.
  revert s. induction a as [|c a IH]; intros s H; [now exists s|].
  destruct s as [|d s]; [discriminate|]. cbn [prefix] in H.
  destruct (ascii_dec c d) as [->|]; [|discriminate].
  destruct (IH s H) as [r ->]. now exists r.
Qed.

Lemma TrimPrefix_app (a b : string) : TrimPrefix (a ++ b)%string a = b.
Proof.
  unfold TrimPrefix, HasPrefix. rewrite prefix_app, length_app.
  replace (String.length a + String.length b - String.length a)
    with (String.length b) by lia.
  rewrite <- (Nat.add_0_r (String.length a)) at 1.
  now rewrite substring_skip_more, substring_all.
Qed.

Lemma Text_keyValueLine (kv : string * string) :
  MidReplyLine_Text (keyValueLine kv) = Some (keyValueText kv).
Proof.
  unfold MidReplyLine_Text, MidReplyLine_parts, keyValueLine.
  change ("250-" ++ fst kv ++ "=" ++ snd kv)%string
    with ("250" ++ String "-" (keyValueText kv))%string.
  change "-"%string with (String "-" EmptyString).
  now rewrite (SplitN2_char "-" "250" _ eq_refl).
Qed.

Lemma StatusText_keyValueEnd (kv : string * string) :
  EndReplyLine_StatusText (keyValueEnd kv) = Some (keyValueText kv).
Proof.
  unfold EndReplyLine_StatusText, _status_parts, keyValueEnd.
  change ("250 " ++ fst kv ++ "=" ++ snd kv)%string
    with ("250" ++ String " " (keyValueText kv))%string.
  change " "%string with (String " " EmptyString).
  now rewrite (SplitN2_char " " "250" _ eq_refl).
Qed.

Lemma split_keyValueText (kv : string * string) :
  lacks "=" (fst kv) = true ->
  SplitN2 (keyValueText kv) "=" = [fst kv; snd kv].
Proof.
  intros H. unfold keyValueText.
  change ("=" ++ snd kv)%string with (String "=" (snd kv)).
  change "="%string with (String "=" EmptyString).
  now apply SplitN2_char.
Qed.

Lemma isMidReplyLine_keyValueLine (kv : string * string) :
  isMidReplyLine (keyValueLine kv) = true.
Proof.
  destruct kv as [k v]. unfold keyValueLine. cbn [fst snd].
  destruct k as [|c k]; reflexivity.
Qed.

(** X9. GetConfResponse.ValueOf on the mid-reply lines "250-key=value" of
    a reply, the keys holding no "=": the result is the value of the
    first line with exactly that key, and the empty string when no line
    has it. *)
Theorem GetConf_ValueOf_first (kvs : list (string * string))
    (data : list DataReplyLine) (e : EndReplyLine) (key : string) :
  Forall (fun kv => lacks "=" (fst kv) = true) kvs ->
  GetConfResponse_ValueOf (replyOf (map keyValueLine kvs) data e) key
  = Some (firstValue kvs key).
Proof.
  unfold GetConfResponse_ValueOf, replyOf, firstValue. cbn [Buffer NewResponse MidReplyLines].
  induction 1 as [|kv kvs Hk _ IH]; [reflexivity|].
  cbn [map conf_lookup find]. rewrite Text_keyValueLine.
  cbv zeta. rewrite (split_keyValueText kv Hk). cbn [hd nth_error].
  destruct (String.eqb (fst kv) key); [reflexivity | exact IH].
Qed.

Lemma GetConf_ValueOf_first_witness :
  GetConfResponse_ValueOf
    (replyOf (map keyValueLine [("SocksPort", "9050"); ("ControlPort", "9051");
                                ("SocksPort", "10.0.0.1:9050")])
             [] "250 CookieAuthentication=1") "SocksPort"
  = Some (firstValue [("SocksPort", "9050"); ("ControlPort", "9051");
                      ("SocksPort", "10.0.0.1:9050")] "SocksPort").
Proof.
  apply (GetConf_ValueOf_first
           [("SocksPort", "9050"); ("ControlPort", "9051");
            ("SocksPort", "10.0.0.1:9050")]).
  repeat constructor.
Defined.

Lemma collect_keyValueLines (kvs : list (string * string)) : forall results,
  Forall (fun kv => lacks "=" (fst kv) = true) kvs ->
  collect_mids (map keyValueLine kvs) results
  = Some (fold_left (fun m kv => put (fst kv) (snd kv) m) kvs results).
Proof.
  induction kvs as [|kv kvs IH]; intros results H; [reflexivity|].
  inversion H as [|? ? Hk Hrest]; subst.
  cbn [map collect_mids fold_left]. rewrite Text_keyValueLine.
  cbv zeta. rewrite (split_keyValueText kv Hk). cbn [hd nth_error].
  now apply IH.
Qed.

Lemma fold_put_last (kvs : list (string * string)) (results : StrMap) (key : string) :
  fold_left (fun m kv => put (fst kv) (snd kv) m) kvs results key
  = match lastValue kvs key with
    | Some v => Some v
    | None => results key
    end.
Proof.
  unfold lastValue. induction kvs as [|kv kvs IH] using rev_ind; [reflexivity|].
  rewrite fold_left_app, rev_app_distr. cbn [fold_left rev app find].
  unfold put at 1. rewrite (String.eqb_sym key (fst kv)).
  destruct (String.eqb (fst kv) key); [reflexivity | exact IH].
Qed.

(** X10. GetConfResponse.ValueAll on such a reply, whose end-reply line
    "250 key=value" carries the last pair: the map binds a key to the
    value of the LAST line with that key, the end-reply line counting as
    the last of all, and binds no other key. *)
Theorem GetConf_ValueAll_last (kvs : list (string * string))
    (last : string * string) (data : list DataReplyLine) :
  Forall (fun kv => lacks "=" (fst kv) = true) (kvs ++ [last]) ->
  exists results,
    GetConfResponse_ValueAll (replyOf (map keyValueLine kvs) data (keyValueEnd last))
    = Some results
    /\ forall key, results key = lastValue (kvs ++ [last]) key.
Proof.
  intros H. apply Forall_app in H as [Hk Hl]. inversion Hl as [|? ? Hlast _]; subst.
  unfold GetConfResponse_ValueAll, StatusText, replyOf.
  cbn [Buffer NewResponse MidReplyLines EndReplyLine_].
  rewrite (collect_keyValueLines kvs emptyMap Hk), StatusText_keyValueEnd.
  cbv zeta. rewrite (split_keyValueText last Hlast). cbn [hd nth_error].
  eexists. split; [reflexivity|]. intros key.
  change (put (fst last) (snd last)
            (fold_left (fun m kv => put (fst kv) (snd kv) m) kvs emptyMap))
    with (fold_left (fun m kv => put (fst kv) (snd kv) m) [last]
            (fold_left (fun m kv => put (fst kv) (snd kv) m) kvs emptyMap)).
  rewrite <- fold_left_app, fold_put_last.
  now destruct (lastValue (kvs ++ [last]) key).
Qed.

Lemma GetConf_ValueAll_last_witness :
  exists results,
    GetConfResponse_ValueAll
      (replyOf (map keyValueLine [("SocksPort", "9050"); ("SocksPort", "10.0.0.1:9050")])
               [] (keyValueEnd ("ControlPort", "9051")))
    = Some results
    /\ forall key,
         results key
         = lastValue ([("SocksPort", "9050"); ("SocksPort", "10.0.0.1:9050")]
                        ++ [("ControlPort", "9051")]) key.
Proof.
  apply (GetConf_ValueAll_last
           [("SocksPort", "9050"); ("SocksPort", "10.0.0.1:9050")]
           ("ControlPort", "9051") []).
  repeat constructor.
Defined.

Lemma find_prefix_keyValueLines (kvs : list (string * string)) (pre : string) :
  __find_prefix_mrl (map keyValueLine kvs) pre
  = Some (match find (fun kv => HasPrefix (keyValueText kv) pre) kvs with
          | Some kv => keyValueText kv
          | None => EmptyString
          end).
Proof.
  induction kvs as [|kv kvs IH]; [reflexivity|].
  cbn [map __find_prefix_mrl find]. rewrite Text_keyValueLine.
  destruct (HasPrefix (keyValueText kv) pre); [reflexivity | exact IH].
Qed.

Lemma find_skips (A : Type) (f : A -> bool) (pre : list A) (x : A) (post : list A) :
  Forall (fun y => f y = false) pre -> f x = true ->
  find f (pre ++ x :: post) = Some x.
Proof.
  induction 1 as [|y pre Hy _ IH]; intros Hx; cbn [app find].
  - now rewrite Hx.
  - rewrite Hy. now apply IH.
Qed.

(** X11. GetInfoResponse.ValueOf matches by prefix: when the first
    mid-reply line "250-k=v" whose text starts with the key is the line
    of exactly that key, the result is its value. *)
Theorem GetInfo_ValueOf_key (pre post : list (string * string))
    (key value : string) (data : list DataReplyLine) (e : EndReplyLine) :
  Forall (fun kv => HasPrefix (keyValueText kv) key = false) pre ->
  GetInfoResponse_ValueOf
    (replyOf (map keyValueLine (pre ++ (key, value) :: post)) data e) key
  = Some value.
Proof.
  intros H. unfold GetInfoResponse_ValueOf, replyOf.
  cbn [Buffer NewResponse MidReplyLines DataReplyLines].
  rewrite find_prefix_keyValueLines.
  rewrite (find_skips _ _ pre (key, value) post H).
  2:{ unfold keyValueText, HasPrefix. cbn [fst snd]. apply prefix_app. }
  unfold keyValueText. cbn [fst snd].
  change ("=" ++ value)%string with (String "=" value).
  rewrite append_not_empty. cbn [negb].
  change (String "=" value) with ("=" ++ value)%string.
  now rewrite <- append_assoc, TrimPrefix_app.
Qed.

Lemma GetInfo_ValueOf_key_witness :
  GetInfoResponse_ValueOf
    (replyOf (map keyValueLine ([("config-file", "/etc/tor/torrc")]
                                  ++ ("version", "0.2.7.6") :: [("versionx", "1")]))
             [] "250 OK") "version"
  = Some "0.2.7.6".
Proof.
  apply (GetInfo_ValueOf_key [("config-file", "/etc/tor/torrc")] [("versionx", "1")]
           "version" "0.2.7.6" [] "250 OK").
  repeat constructor.
Defined.

End LookupFacts.

Section ReplyValues.

(** X12. The prefix match of GetInfoResponse.ValueOf, where it is not the
    key that matches: when the first mid-reply line "250-k=v" whose text
    starts with the key does not start with the key followed by "=", the
    result is the whole text "k=v" of that line, not a value. *)
Theorem GetInfo_ValueOf_longer_key (pre post : list (string * string))
    (kv : string * string) (key : string)
    (data : list DataReplyLine) (e : EndReplyLine) :
  Forall (fun kv' => HasPrefix (keyValueText kv') key = false) pre ->
  HasPrefix (keyValueText kv) key = true ->
  HasPrefix (keyValueText kv) (key ++ "=") = false ->
  GetInfoResponse_ValueOf
    (replyOf (map keyValueLine (pre ++ kv :: post)) data e) key
  = Some (keyValueText kv).
Proof.
  intros Hpre Hk Hne. unfold GetInfoResponse_ValueOf, replyOf.
  cbn [Buffer NewResponse MidReplyLines DataReplyLines].
  rewrite find_prefix_keyValueLines, (find_skips _ _ pre kv post Hpre Hk).
  unfold TrimPrefix. rewrite Hne.
  unfold keyValueText at 1.
  change ("=" ++ snd kv)%string with (String "=" (snd kv)).
  now rewrite append_not_empty.
Qed.

Lemma GetInfo_ValueOf_longer_key_witness :
  GetInfoResponse_ValueOf
    (replyOf (map keyValueLine ([] ++ ("version-extra", "7") :: [("version", "0.2.7.6")]))
             [] "250 OK") "version"
  = Some (keyValueText ("version-extra", "7")).
Proof.
  apply (GetInfo_ValueOf_longer_key [] [("version", "0.2.7.6")]
           ("version-extra", "7") "version" [] "250 OK").
  - constructor.
  - reflexivity.
  - reflexivity.
Defined.

(** X13. GetInfoResponse.ValueOf falls back to the data blocks: when the
    text of no mid-reply line starts with the key and the first data
    block is opened by "250+key=", the result is the body lines of that
    block joined by newlines. *)
Theorem GetInfo_ValueOf_block (kvs : list (string * string)) (key : string)
    (body : list string) (blocks : list DataReplyLine) (e : EndReplyLine) :
  Forall (fun kv => HasPrefix (keyValueText kv) key = false) kvs ->
  GetInfoResponse_ValueOf
    (replyOf (map keyValueLine kvs)
             ((("250+" ++ key ++ "=")%string :: body) :: blocks) e) key
  = Some (Join body NL).
Proof.
  intros H. unfold GetInfoResponse_ValueOf, replyOf.
  cbn [Buffer NewResponse MidReplyLines DataReplyLines].
  rewrite find_prefix_keyValueLines.
  assert (Hf : find (fun kv => HasPrefix (keyValueText kv) key) kvs = None).
  { induction H as [|kv kvs Hk _ IH]; [reflexivity|]. cbn [find]. now rewrite Hk. }
  rewrite Hf. cbn [String.eqb negb __find_prefix_drl].
  unfold DataReplyLine_Text, DataReplyLine_parts.
  change ("250+" ++ key ++ "=")%string with ("250" ++ String "+" (key ++ "="))%string.
  change "+"%string with (String "+" EmptyString).
  rewrite (SplitN2_char "+" "250" _ eq_refl). cbn [nth_error].
  unfold HasPrefix. now rewrite prefix_app.
Qed.

Lemma GetInfo_ValueOf_block_witness :
  GetInfoResponse_ValueOf
    (replyOf (map keyValueLine [("version", "0.2.7.6")])
             ((("250+" ++ "info/names" ++ "=")%string
                 :: ["foo Description"; "bar Description"]) :: []) "250 OK")
    "info/names"
  = Some (Join ["foo Description"; "bar Description"] NL).
Proof.
  apply (GetInfo_ValueOf_block [("version", "0.2.7.6")] "info/names"
           ["foo Description"; "bar Description"] [] "250 OK").
  repeat constructor.
Defined.

(** X14. A GETINFO reply for one key, from the wire to the value: the line
    "250-key=value" (the key without "=") and an end-reply line, read by
    a new parser, post one buffer, and GetInfoResponse.Value of the
    response built on it is the value. *)
Theorem GetInfo_Value_of_parsed_line (key value e : string)
    (req : BaseControlRequest) :
  lacks "=" key = true ->
  isEndReplyLine e = true ->
  exists b,
    snd (Run NewParser [wire (keyValueLine (key, value)); wire e]) = [b]
    /\ GetInfoResponse_Value (NewResponse req b) = Some value.
Proof.
  intros Hk He.
  exists (bufferOf ([ItemMid (keyValueLine (key, value))], e)). split.
  - destruct (Run_msg ([ItemMid (keyValueLine (key, value))], e) NewParser
                      eq_refl eq_refl) as (d & Hrun).
    { unfold wfMsg. cbn [forallb fst snd wfItem].
      now rewrite isMidReplyLine_keyValueLine, He. }
    change [wire (keyValueLine (key, value)); wire e]
      with (map wire (msgLines ([ItemMid (keyValueLine (key, value))], e))).
    now rewrite Hrun.
  - unfold GetInfoResponse_Value, bufferOf.
    cbn [Buffer NewResponse MidReplyLines fst snd midsOf].
    unfold keyValueLine. cbn [fst snd].
    change ("250-" ++ key ++ "=" ++ value)%string
      with (("250-" ++ key) ++ String "=" value)%string.
    change "="%string with (String "=" EmptyString).
    rewrite SplitN2_char; [reflexivity|]. exact Hk.
Qed.

Lemma GetInfo_Value_of_parsed_line_witness :
  exists b,
    snd (Run NewParser [wire (keyValueLine ("version", "0.2.7.6")); wire "250 OK"]) = [b]
    /\ GetInfoResponse_Value (NewResponse (NewRequest "GETINFO version") b)
       = Some "0.2.7.6".
Proof.
  apply (GetInfo_Value_of_parsed_line "version" "0.2.7.6" "250 OK"
           (NewRequest "GETINFO version")); reflexivity.
Defined.

(** X15. A GETINFO reply with one data block, from the wire to the value:
    a data-reply line, body lines none of which is ".", the "." line and
    an end-reply line, read by a new parser, post one buffer, and
    GetInfoResponse.Value of the response built on it is the body lines
    joined by newlines. *)
Theorem GetInfo_Value_of_parsed_block (hdr : string) (body : list string)
    (e : string) (req : BaseControlRequest) :
  isDataReplyLine hdr = true ->
  Forall (fun l => l <> ".") body ->
  isEndReplyLine e = true ->
  exists b,
    snd (Run NewParser (map wire (hdr :: body ++ ["."; e]))) = [b]
    /\ GetInfoResponse_Value (NewResponse req b) = Some (Join body NL).
Proof.
  intros Hd Hb He. exists (mkResponseBuffer [] [hdr :: body] e).
  split; [now apply Run_data_block | reflexivity].
Qed.

Lemma GetInfo_Value_of_parsed_block_witness :
  exists b,
    snd (Run NewParser
           (map wire ("250+info/names=" :: ["foo Description"; "bar Description"]
                        ++ ["."; "250 OK"]))) = [b]
    /\ GetInfoResponse_Value (NewResponse (NewRequest "GETINFO info/names") b)
       = Some (Join ["foo Description"; "bar Description"] NL).
Proof.
  apply (GetInfo_Value_of_parsed_block "250+info/names="
           ["foo Description"; "bar Description"] "250 OK"
           (NewRequest "GETINFO info/names")).
  - reflexivity.
  - repeat constructor; discriminate.
  - reflexivity.
Defined.

Lemma find_prefix_mrl_result (data : list MidReplyLine) (pre v : string) :
  __find_prefix_mrl data pre = Some v ->
  v = EmptyString
  \/ (HasPrefix v pre = true
      /\ exists l, In l data /\ MidReplyLine_Text l = Some v).
Proof.
  induction data as [|l data IH]; cbn [__find_prefix_mrl].
  - intros H. injection H as <-. now left.
  - destruct (MidReplyLine_Text l) as [text|] eqn:Ht; [|discriminate].
    destruct (HasPrefix text pre) eqn:Hp.
    + intros H. injection H as <-. right. split; [exact Hp|].
      exists l. split; [now left | exact Ht].
    + intros H. destruct (IH H) as [->|(Hv & l' & Hin & Hl')]; [now left|].
      right. split; [exact Hv|]. exists l'. split; [now right | exact Hl'].
Qed.

Lemma sliceFrom_app (a b : string) :
  sliceFrom (a ++ b)%string (String.length a) = Some b.
Proof.
  unfold sliceFrom. rewrite length_app.
  replace (String.length a + String.length b <? String.length a)%nat with false
    by (symmetry; apply Nat.ltb_ge; lia).
  replace (String.length a + String.length b - String.length a)
    with (String.length b) by lia.
  rewrite <- (Nat.add_0_r (String.length a)) at 1.
  now rewrite substring_skip_more, substring_all.
Qed.

(** X16. Whenever AddOnionResponse.ServiceId returns, its result starts
    with "=": it is the text of a mid-reply line that starts with
    "ServiceID=", cut after "ServiceID", so the "=" stays in front of the
    identifier. *)
Theorem AddOnion_ServiceId_keeps_equals (m : BaseControlResponse) (id : string) :
  AddOnionResponse_ServiceId m = Some id ->
  exists rest l,
    id = ("=" ++ rest)%string
    /\ In l (MidReplyLines (Buffer m))
    /\ MidReplyLine_Text l = Some ("ServiceID=" ++ rest)%string.
Proof.
  unfold AddOnionResponse_ServiceId.
  destruct (__find_prefix_mrl (MidReplyLines (Buffer m)) "ServiceID=") as [v|] eqn:Hf;
    [|discriminate].
  destruct (find_prefix_mrl_result _ _ _ Hf) as [->|(Hp & l & Hin & Hl)];
    [discriminate|].
  destruct (prefix_split _ _ Hp) as [rest ->].
  change ("ServiceID=" ++ rest)%string with ("ServiceID" ++ ("=" ++ rest))%string.
  rewrite sliceFrom_app. intros H. injection H as <-.
  now exists rest, l.
Qed.

Lemma AddOnion_ServiceId_keeps_equals_witness :
  exists rest l,
    ("=" ++ "2g6hrrpkwq5nikxc")%string = ("=" ++ rest)%string
    /\ In l (MidReplyLines
               (Buffer (replyOf ["250-ServiceID=2g6hrrpkwq5nikxc"] [] "250 OK")))
    /\ MidReplyLine_Text l = Some ("ServiceID=" ++ rest)%string.
Proof.
  apply (AddOnion_ServiceId_keeps_equals
           (replyOf ["250-ServiceID=2g6hrrpkwq5nikxc"] [] "250 OK")).
  reflexivity.
Defined.

(** X17. AddOnionResponse.ServiceId panics on a reply none of whose
    mid-reply lines starts with "ServiceID=", such as the reply to a
    failed ADD_ONION: the lookup yields the empty string, which is then
    sliced from index 9. *)
Theorem AddOnion_ServiceId_panics_without_line (mids : list MidReplyLine)
    (data : list DataReplyLine) (e : EndReplyLine) :
  Forall (fun l => exists t, MidReplyLine_Text l = Some t
                             /\ HasPrefix t "ServiceID=" = false) mids ->
  AddOnionResponse_ServiceId (replyOf mids data e) = None.
Proof.
  intros H. unfold AddOnionResponse_ServiceId, replyOf.
  cbn [Buffer NewResponse MidReplyLines].
  assert (Hf : __find_prefix_mrl mids "ServiceID=" = Some EmptyString).
  { induction H as [|l mids (t & Ht & Hp) _ IH]; [reflexivity|].
    cbn [__find_prefix_mrl]. now rewrite Ht, Hp. }
  now rewrite Hf.
Qed.

Lemma AddOnion_ServiceId_panics_without_line_witness :
  AddOnionResponse_ServiceId (replyOf [] [] "512 Invalid VIRTPORT/TARGET") = None.
Proof.
  apply (AddOnion_ServiceId_panics_without_line [] [] "512 Invalid VIRTPORT/TARGET").
  constructor.
Defined.

End ReplyValues.

(** ** From the posted buffer to the success of the response *)
Section PostedStatus.

(** X18. For every buffer the parser posts, the response built on it is a
    failure exactly when the first three bytes of its end-reply line
    read as an integer from 300 to 599; its Status is never the -1 of an
    unparsed code unless those bytes read as -1. *)
Theorem posted_response_failure (reads : list ReadResult) (b : ResponseBuffer)
    (req : BaseControlRequest) :
  In b (snd (Run NewParser reads)) ->
  exists v,
    Atoi (substring 0 3 (EndReplyLine_ b)) = Some v
    /\ Status (NewResponse req b) = v
    /\ (IsSuccess (NewResponse req b) = false <-> (300 <= v <= 599)%Z).
Proof.
  intros Hin.
  destruct (Run_wf reads NewParser eq_refl) as [_ Hall].
  rewrite forallb_forall in Hall. specialize (Hall b Hin).
  unfold wfBuffer in Hall. apply andb_true_iff in Hall as [_ He].
  destruct (end_reply_line_split _ He) as (v & Ha & Hsplit).
  assert (Hs : EndStatus (EndReplyLine_ b) = v).
  { unfold EndStatus, _status_parts. rewrite Hsplit. cbn [hd]. now rewrite Ha. }
  exists v. split; [exact Ha|]. split; [exact Hs|].
  unfold IsSuccess. cbv zeta.
  change (Status (NewResponse req b)) with (EndStatus (EndReplyLine_ b)).
  rewrite Hs.
  destruct (Z.gtb_spec v 299), (Z.ltb_spec v 600); cbn;
    split; intros Hyp; try discriminate; try reflexivity; lia.
Qed.

Lemma posted_response_failure_witness :
  exists v,
    Atoi (substring 0 3 (EndReplyLine_ bad515)) = Some v
    /\ Status (NewResponse (NewRequest "AUTHENTICATE") bad515) = v
    /\ (IsSuccess (NewResponse (NewRequest "AUTHENTICATE") bad515) = false
        <-> (300 <= v <= 599)%Z).
Proof.
  apply (posted_response_failure [wire "515 Authentication failed"] bad515
           (NewRequest "AUTHENTICATE")).
  vm_compute. left. reflexivity.
Defined.

End PostedStatus.

(** ** What goes out on the wire *)
Section WireFacts.

(** X19. The bytes Normalize yields are in wire form for every LineBuffer:
    no LF without a CR before it, and, when the buffer has a line, CRLF
    at the end. *)
Theorem Normalize_yields_wire_form (b : LineBuffer) :
  noBareLF (Normalize b) = true
  /\ (b <> [] -> HasSuffix (Normalize b) CRLF = true).
Proof.
  destruct b as [|v b]; [split; [reflexivity | now intros H]|].
  pose proof (Normalize_nonempty_crlfLine v b) as H.
  unfold crlfLine in H. apply andb_true_iff in H as [Hs Hc].
  split; [exact Hc | now intros _].
Qed.

Lemma noLF_noBareLF (s : string) : forall b,
  noLF s = true -> noBareLF_after b s = true.
Proof.
  induction s as [|c s IH]; intros b H; [reflexivity|].
  cbn [noLF] in H. apply andb_true_iff in H as [Hc H].
  cbn [noBareLF_after]. destruct (Ascii.eqb c LF); [discriminate|].
  cbn. now apply IH.
Qed.

Lemma HasSuffix_CRLF_has_LF (s : string) :
  noLF s = true -> HasSuffix s CRLF = false.
Proof.
  induction s as [|c s IH]; intros H; [reflexivity|].
  cbn [noLF] in H. apply andb_true_iff in H as [Hc H].
  destruct s as [|d [|d2 s]].
  - reflexivity.
  - cbn [noLF] in H. apply andb_true_iff in H as [Hd _].
    unfold HasSuffix. cbn.
    destruct (Ascii.eqb c CR); [|reflexivity].
    destruct (Ascii.eqb_spec d LF) as [->|]; [discriminate|].
    now destruct (Ascii.eqb d LF) eqn:E; [apply Ascii.eqb_eq in E|].
  - rewrite HasSuffix_cons; [now apply IH | cbn; lia].
Qed.

(** A line without LF gets its CRLF and nothing else. *)
Lemma Normalize_line_without_LF (data : string) :
  noLF data = true -> Normalize [data] = (data ++ CRLF)%string.
Proof.
  intros H. cbn [Normalize]. rewrite append_nil_r.
  unfold normalizeLine, Replace.
  rewrite (R2_R1_id data (noLF_noBareLF data false H)).
  now rewrite (HasSuffix_CRLF_has_LF data H).
Qed.

Lemma HasSuffix_app_same (a suf : string) : HasSuffix (a ++ suf)%string suf = true.
Proof.
  unfold HasSuffix. rewrite length_app.
  replace (String.length a + String.length suf - String.length suf)
    with (String.length a) by lia.
  rewrite substring_skip, substring_all, String.eqb_refl.
  replace (String.length suf <=? String.length a + String.length suf)%nat with true
    by (symmetry; apply Nat.leb_le; lia).
  reflexivity.
Qed.

Lemma TrimSuffix_app_same (a suf : string) : TrimSuffix (a ++ suf)%string suf = a.
Proof.
  unfold TrimSuffix. rewrite HasSuffix_app_same, length_app.
  replace (String.length a + String.length suf - String.length suf)
    with (String.length a) by lia.
  apply substring_take.
Qed.

Lemma Request_outcome (req : BaseControlRequest) (c : Controller) (w : World)
    (conn : Conn) :
  connection c = Some conn -> in_ c = ChanOpen ->
  Request req c w
  = Ok (outcome req w) c
       (mkWorld (tl (exchanges w)) (files w)
                (trace w ++ [EvWrite conn (Normalize (Serialize req))])).
Proof.
  intros Hc Hi. unfold outcome.
  unfold Request, bind, nextExchange, SendMessage, bind, self, emit, ret.
  destruct (exchanges w) as [|x xs] eqn:Hx; cbn; rewrite Hc; cbn.
  - now rewrite Hi, Hx.
  - destruct x; cbn; rewrite ?Hi; reflexivity.
Qed.

(** X20. A request built by NewRequest from a line without LF, sent on a
    connected session: Request returns, whatever the peer does (reply,
    silence until the timeout, failed write), with the controller exactly
    as it was, and what it writes to the connection is the line followed
    by CRLF, once. *)
Theorem Request_writes_line (data : string) (c : Controller) (w : World)
    (conn : Conn) :
  connection c = Some conn ->
  noLF data = true ->
  exists r w',
    Request (NewRequest data) c w = Ok r c w'
    /\ trace w' = trace w ++ [EvWrite conn (data ++ CRLF)%string].
Proof.
  intros Hc Hd.
  destruct (Request_run (NewRequest data) c w conn Hc) as (r & w' & Hr & _ & Ht).
  exists r, w'. split; [exact Hr|]. rewrite Ht.
  change (Serialize (NewRequest data)) with [data].
  now rewrite (Normalize_line_without_LF data Hd).
Qed.

Lemma Request_writes_line_witness :
  exists r w',
    Request (NewRequest "GETINFO version") (established 7 fresh)
            (mkWorld [Silent] noFiles [])
    = Ok r (established 7 fresh) w'
    /\ trace w' = trace (mkWorld [Silent] noFiles [])
                  ++ [EvWrite 7 ("GETINFO version" ++ CRLF)%string].
Proof.
  apply (Request_writes_line "GETINFO version" (established 7 fresh)
           (mkWorld [Silent] noFiles []) 7); reflexivity.
Defined.

(** X21. DelOnion strips one ".onion" from the service id: for an id given
    with the suffix, the request sent is DEL_ONION with the id without
    it. *)
Theorem DelOnion_strips_onion (id : string) (c : Controller) (w : World) :
  DelOnion (id ++ ".onion") c w
  = Request (NewRequest ("DEL_ONION " ++ id)) c w.
Proof.
  unfold DelOnion. cbv zeta.
  now rewrite HasSuffix_app_same, TrimSuffix_app_same.
Qed.

End WireFacts.

(** ** More of the session *)
Section SessionExtras.

Variable AuthMethods : BaseControlResponse -> list string.
Variable AuthCookieFile : BaseControlResponse -> string.

(** X22. What the two loops of Connect select, for every list of
    advertised methods and every authenticator set before: the open
    authenticator if NULL is advertised, else the password authenticator
    if HASHEDPASSWORD is, else the cookie authenticator if COOKIE is,
    else the authenticator that was set before. So the safe-cookie
    authenticator is never selected, and a controller that already has
    an authenticator never lacks a compatible method. *)
Theorem selection_by_advertised_methods (methods : list string)
    (cur : option Authenticator) :
  selectAuthenticator authPrefs methods cur
  = if advertised methods OpenAuthenticator then Some OpenAuthenticator
    else if advertised methods PasswordAuthenticator then Some PasswordAuthenticator
    else if advertised methods CookieAuthenticator then Some CookieAuthenticator
    else cur.
Proof.
  rewrite selectAuthenticator_last. cbn [authPrefs rev app find].
  destruct (advertised methods OpenAuthenticator); [reflexivity|].
  destruct (advertised methods PasswordAuthenticator); [reflexivity|].
  now destruct (advertised methods CookieAuthenticator).
Qed.

(** X23. Once Connect has got past the dial, a further Connect does
    nothing: it returns nil at once, without dialing, sending or
    authenticating, whatever the peer would do. This also holds after a
    Connect that returned an error: the retry reports success on a
    session that is still not authenticated. *)
Theorem Connect_again_returns_nil (c : Controller) (w : World) (conn : Conn)
    (r : option error) (c' : Controller) (w' : World) :
  IsConnected c = false ->
  IsAuthenticated c = false ->
  Dialer c (network c) (hostport c) = Some conn ->
  Connect AuthMethods AuthCookieFile c w = Ok r c' w' ->
  (forall w2, Connect AuthMethods AuthCookieFile c' w2 = Ok None c' w2)
  /\ (r <> None -> IsAuthenticated c' = false).
Proof.
  intros Hc Ha Hd Hrun.
  destruct (Connect_after_dial AuthMethods AuthCookieFile c w conn Hc Hd)
    as (r0 & c0 & w0 & evs & H & _ & Hcon & _ & _ & Hflag & _).
  rewrite H in Hrun. injection Hrun as <- <- <-.
  split.
  - intros w2. unfold Connect, bind, self, ret, IsConnected. now rewrite Hcon.
  - intros Hr. now apply Hflag.
Qed.

(** The closed session of the next lemma can be reached. *)
Lemma Request_without_connection (req : BaseControlRequest) (c : Controller)
    (w : World) :
  connection c = None -> Request req c w = Panic.
Proof.
  intros H. unfold Request, bind, nextExchange, SendMessage, bind, self.
  destruct (exchanges w); cbn; now rewrite H.
Qed.

(** X24. A request on a session that Close has returned from panics,
    whatever the request and whatever the peer: SendMessage dereferences
    the connection that Close has set to nil. *)
Theorem Request_after_Close_panics (c : Controller) (w : World)
    (c1 : Controller) (w1 : World) (req : BaseControlRequest) (w2 : World) :
  Close c w = Ok tt c1 w1 ->
  Request req c1 w2 = Panic.
Proof.
  intros H. destruct (Close_closable c w c1 w1 H) as [_ Hn].
  now apply Request_without_connection.
Qed.

(** X25. The authenticated flag is raised only by a reply that is a
    success: if an exchange on a connected, unauthenticated session
    leaves the session authenticated, then it returned nil and the peer
    answered its request with a buffer whose status is outside 300..599. *)
Theorem Authenticate_flag_needs_success (a : Authenticator)
    (protoinfo : BaseControlResponse) (c : Controller) (w : World) (conn : Conn)
    (e : option error) (c' : Controller) (w' : World) :
  connection c = Some conn ->
  in_ c = ChanOpen ->
  isAuthenticated c = false ->
  Authenticate AuthCookieFile a protoinfo c w = Ok e c' w' ->
  isAuthenticated c' = true ->
  e = None
  /\ exists b rest,
       exchanges w = Replies b :: rest
       /\ ~ (300 <= EndStatus (EndReplyLine_ b) <= 599)%Z.
Proof.
  intros Hc Hi Hu Hrun Hauth.
  assert (Hsucc : forall req b, IsSuccess (NewResponse req b) = true ->
                    ~ (300 <= EndStatus (EndReplyLine_ b) <= 599)%Z).
  { intros req b Hs Hrange.
    rewrite (status_300_599_not_success (NewResponse req b) Hrange) in Hs.
    discriminate. }
  assert (Hflag : forall b, isAuthenticated (set_isAuthenticated b c) = b)
    by reflexivity.
  destruct a; cbn [Authenticate] in Hrun; unfold bind, ReadFile, self, ret in Hrun.
  - rewrite (Request_outcome _ c w conn Hc Hi) in Hrun. unfold outcome in Hrun.
    destruct (exchanges w) as [|[|b|] rest];
      try (injection Hrun as _ <- _; congruence).
    rewrite conclude_run in Hrun. injection Hrun as <- <- _.
    rewrite Hflag in Hauth. rewrite Hauth. split; [reflexivity|].
    exists b, rest. split; [reflexivity|]. now apply (Hsucc _ _ Hauth).
  - destruct (files w (AuthCookieFile protoinfo)) as [cookie|];
      [|injection Hrun as _ <- _; congruence].
    rewrite (Request_outcome _ c w conn Hc Hi) in Hrun. unfold outcome in Hrun.
    destruct (exchanges w) as [|[|b|] rest];
      try (injection Hrun as _ <- _; congruence).
    cbv zeta in Hrun.
    destruct (IsSuccess (NewResponse _ b)) eqn:Hs; cbn [negb] in Hrun;
      [|injection Hrun as _ <- _; congruence].
    rewrite conclude_run, Hs in Hrun. injection Hrun as <- _ _.
    split; [reflexivity|]. exists b, rest. split; [reflexivity|].
    now apply (Hsucc _ _ Hs).
  - rewrite (Request_outcome _ c w conn Hc Hi) in Hrun. unfold outcome in Hrun.
    destruct (exchanges w) as [|[|b|] rest];
      try (injection Hrun as _ <- _; congruence).
    cbv zeta in Hrun.
    destruct (IsSuccess (NewResponse _ b)) eqn:Hs; cbn [negb] in Hrun;
      [|injection Hrun as _ <- _; congruence].
    rewrite conclude_run, Hs in Hrun. injection Hrun as <- _ _.
    split; [reflexivity|]. exists b, rest. split; [reflexivity|].
    now apply (Hsucc _ _ Hs).
  - injection Hrun as _ <- _. congruence.
Qed.

End SessionExtras.

Section SessionExtrasWitnesses.

Lemma Connect_again_returns_nil_witness :
  let c' := established 7 fresh in
  (forall w2, Connect passwordOrNull cookiePath c' w2 = Ok None c' w2)
  /\ (Some ErrTimeout <> None -> IsAuthenticated c' = false).
Proof.
  cbv zeta.
  apply (Connect_again_returns_nil passwordOrNull cookiePath fresh
           (mkWorld [Silent] noFiles []) 7 (Some ErrTimeout) (established 7 fresh)
           (mkWorld [] noFiles
              [EvDial "tcp" "127.0.0.1:9051"; EvGoParserRun;
               EvWrite 7 ("PROTOCOLINFO" ++ CRLF)%string])); reflexivity.
Defined.

Lemma Request_after_Close_panics_witness :
  Request (NewRequest "GETINFO version") (torn_down (established 7 fresh))
          (mkWorld [Replies ok250] noFiles [])
  = Panic.
Proof.
  apply (Request_after_Close_panics (established 7 fresh) (mkWorld [] noFiles [])
           (torn_down (established 7 fresh))
           (mkWorld [] noFiles [EvConnClose 7; EvChanClose])).
  reflexivity.
Defined.

Lemma Authenticate_flag_needs_success_witness :
  None = (@None error)
  /\ exists b rest,
       exchanges (mkWorld [Replies ok250] noFiles []) = Replies b :: rest
       /\ ~ (300 <= EndStatus (EndReplyLine_ b) <= 599)%Z.
Proof.
  apply (Authenticate_flag_needs_success cookiePath OpenAuthenticator
           (NewResponse (NewRequest COMMAND_PROTOCOLINFO) protoinfoReply)
           (established 7 fresh) (mkWorld [Replies ok250] noFiles []) 7
           None (set_isAuthenticated true (established 7 fresh))
           (mkWorld [] noFiles [EvWrite 7 ("AUTHENTICATE" ++ CRLF)%string]));
    reflexivity.
Defined.

End SessionExtrasWitnesses.

(** ** The PROTOCOLINFO and GETCONF replies *)
Section ProtocolInfoFacts.

Lemma find_prefix_mrl_absent (mids : list MidReplyLine) (pre : string) :
  Forall (fun l => exists t, MidReplyLine_Text l = Some t
                             /\ HasPrefix t pre = false) mids ->
  __find_prefix_mrl mids pre = Some EmptyString.
Proof.
  induction 1 as [|l mids (t & Ht & Hp) _ IH]; [reflexivity|].
  cbn [__find_prefix_mrl]. now rewrite Ht, Hp.
Qed.

(** X26. On a reply none of whose mid-reply lines starts with
    "PROTOCOLINFO", respectively "AUTH", such as an error reply to
    PROTOCOLINFO, ProtocolInfoResponse.Protocol, respectively Auth (and
    with it AuthMethods and AuthCookieFile), panics: the lookup yields the
    empty string, which has no second part and cannot be sliced from
    index 4. *)
Theorem ProtocolInfo_accessors_panic_without_line (mids : list MidReplyLine)
    (data : list DataReplyLine) (e : EndReplyLine) :
  Forall (fun l => exists t, MidReplyLine_Text l = Some t
                             /\ HasPrefix t "AUTH" = false
                             /\ HasPrefix t "PROTOCOLINFO" = false) mids ->
  ProtocolInfoResponse_Protocol (replyOf mids data e) = None
  /\ ProtocolInfoResponse_AuthText (replyOf mids data e) = None.
Proof.
  intros H.
  unfold ProtocolInfoResponse_Protocol, ProtocolInfoResponse_AuthText, replyOf.
  cbn [Buffer NewResponse MidReplyLines]. split.
  - rewrite find_prefix_mrl_absent; [reflexivity|].
    eapply Forall_impl; [|exact H]. cbn. intros l (t & Ht & _ & Hp). now exists t.
  - rewrite find_prefix_mrl_absent; [reflexivity|].
    eapply Forall_impl; [|exact H]. cbn. intros l (t & Ht & Hp & _). now exists t.
Qed.

Lemma ProtocolInfo_accessors_panic_without_line_witness :
  ProtocolInfoResponse_Protocol (replyOf [] [] "510 Unrecognized command") = None
  /\ ProtocolInfoResponse_AuthText (replyOf [] [] "510 Unrecognized command") = None.
Proof.
  apply (ProtocolInfo_accessors_panic_without_line [] [] "510 Unrecognized command").
  constructor.
Defined.

(** X27. ProtocolInfoResponse.Protocol on a reply whose first mid-reply
    line with a text starting with "PROTOCOLINFO" is
    "250-PROTOCOLINFO <rest>": the result is the integer Atoi reads in
    the rest, and -1 when the rest is no integer. *)
Theorem ProtocolInfo_Protocol_of_line (pre post : list MidReplyLine) (rest : string)
    (data : list DataReplyLine) (e : EndReplyLine) :
  Forall (fun l => exists t, MidReplyLine_Text l = Some t
                             /\ HasPrefix t "PROTOCOLINFO" = false) pre ->
  ProtocolInfoResponse_Protocol
    (replyOf (pre ++ ("250-PROTOCOLINFO " ++ rest)%string :: post) data e)
  = Some (match Atoi rest with Some i => i | None => (-1)%Z end).
Proof.
  intros H. unfold ProtocolInfoResponse_Protocol, replyOf.
  cbn [Buffer NewResponse MidReplyLines].
  assert (Hf : __find_prefix_mrl
                 (pre ++ ("250-PROTOCOLINFO " ++ rest)%string :: post) "PROTOCOLINFO"
               = Some ("PROTOCOLINFO " ++ rest)%string).
  { induction H as [|l pre (t & Ht & Hp) _ IH]; cbn [app __find_prefix_mrl].
    - unfold MidReplyLine_Text, MidReplyLine_parts.
      change ("250-PROTOCOLINFO " ++ rest)%string
        with ("250" ++ String "-" ("PROTOCOLINFO " ++ rest))%string.
      change "-"%string with (String "-" EmptyString).
      rewrite (SplitN2_char "-" "250" _ eq_refl). cbn [nth_error].
      change ("PROTOCOLINFO " ++ rest)%string
        with ("PROTOCOLINFO" ++ (" " ++ rest))%string at 1.
      unfold HasPrefix. now rewrite prefix_app.
    - now rewrite Ht, Hp. }
  rewrite Hf.
  change ("PROTOCOLINFO " ++ rest)%string
    with ("PROTOCOLINFO" ++ String " " rest)%string.
  change " "%string with (String " " EmptyString).
  rewrite (SplitN2_char " " "PROTOCOLINFO" rest eq_refl). cbn [nth_error].
  now destruct (Atoi rest).
Qed.

Lemma ProtocolInfo_Protocol_of_line_witness :
  ProtocolInfoResponse_Protocol
    (replyOf ([] ++ ("250-PROTOCOLINFO " ++ "1")%string
                :: ["250-AUTH METHODS=NULL"; "250-VERSION Tor=0.2.7.6"]) [] "250 OK")
  = Some (match Atoi "1" with Some i => i | None => (-1)%Z end).
Proof.
  apply (ProtocolInfo_Protocol_of_line []
           ["250-AUTH METHODS=NULL"; "250-VERSION Tor=0.2.7.6"] "1" [] "250 OK").
  constructor.
Defined.

(** X28. GetConfResponse.Value on a reply whose end-reply line is
    "250 key=value", the key holding no "=": the result is the value. On
    an end-reply line "250 <text>" whose text holds no "=", such as
    "250 OK", it panics. *)
Theorem GetConf_Value_of_end_line (mids : list MidReplyLine)
    (data : list DataReplyLine) (kv : string * string) (text : string) :
  lacks "=" (fst kv) = true ->
  lacks "=" text = true ->
  GetConfResponse_Value (replyOf mids data (keyValueEnd kv)) = Some (snd kv)
  /\ GetConfResponse_Value (replyOf mids data ("250 " ++ text)%string) = None.
Proof.
  intros Hk Ht. unfold GetConfResponse_Value, StatusText, replyOf.
  cbn [Buffer NewResponse EndReplyLine_]. split.
  - rewrite StatusText_keyValueEnd, (split_keyValueText kv Hk). reflexivity.
  - unfold EndReplyLine_StatusText, _status_parts.
    change ("250 " ++ text)%string with ("250" ++ String " " text)%string.
    change " "%string with (String " " EmptyString).
    rewrite (SplitN2_char " " "250" text eq_refl). cbn [nth_error].
    change "="%string with (String "=" EmptyString).
    now rewrite (SplitN2_none "=" text Ht).
Qed.

Lemma GetConf_Value_of_end_line_witness :
  GetConfResponse_Value (replyOf [] [] (keyValueEnd ("SocksPort", "9050")))
  = Some (snd ("SocksPort", "9050"))
  /\ GetConfResponse_Value (replyOf [] [] ("250 " ++ "OK")%string) = None.
Proof.
  apply (GetConf_Value_of_end_line [] [] ("SocksPort", "9050") "OK"); reflexivity.
Defined.

End ProtocolInfoFacts.
